(** * Work Hours Calculator (app.py): a shallow embedding and its properties

    The development follows the layout of [app.py]:
    - [Py]: the parts of the Python runtime the program calls
      ([str.isdigit], [int], [datetime.strptime] with the format
      ["%H:%M"], [strftime], [timedelta] arithmetic, exceptions);
    - [App]: the helper functions, the callbacks and the page script;
    - [Spec]: the reference algorithm of the normalizer, as the
      specification words it;
    - the properties.

    Conventions.  A Python [str] is a [string]; each [ascii] is one code
    point in the range U+0000..U+00FF, so [String.length] is Python's
    [len].  A [timedelta] is a whole number of seconds (the program never
    builds one with a microsecond part), a [datetime] is the number of
    seconds since 2024-01-01 00:00:00, the program's [base_date]. *)

From Stdlib Require Import ZArith List String Ascii Bool Lia DecimalString.
From stdpp Require Import base option list strings gmap.

(** ** The Python runtime *)

Module Py.

(** Exceptions the program can meet, and results of fallible code. *)
Inductive exn := ValueError | TypeError | KeyError | IndexError.

Inductive res (A : Type) : Type :=
| Ok (a : A)
| Raise (e : exn).
Arguments Ok {A} a.
Arguments Raise {A} e.

Definition bind {A B} (r : res A) (f : A -> res B) : res B :=
  match r with
  | Ok a => f a
  | Raise e => Raise e
  end.

(** [try: body  except (e1, e2, ...): handler]. *)
Definition try_except {A} (body : res A) (caught : exn -> bool)
           (handler : res A) : res A :=
  match body with
  | Ok a => Ok a
  | Raise e => if caught e then handler else Raise e
  end.

Definition is_ValueError (e : exn) : bool :=
  match e with ValueError => true | _ => false end.

Definition is_ValueError_or_TypeError (e : exn) : bool :=
  match e with ValueError | TypeError => true | _ => false end.

(** Code point of a character. *)
Definition ord (c : ascii) : nat := nat_of_ascii c.

(** The regular expression class [\d] and the test [str.isdecimal]:
    on U+0000..U+00FF the decimal digits are '0'..'9'. *)
Definition isdecimal (c : ascii) : bool :=
  (48 <=? ord c)%nat && (ord c <=? 57)%nat.

(** [str.isdigit] on one character: the decimal digits and, in
    U+0000..U+00FF, the superscripts U+00B2, U+00B3 and U+00B9, which
    have a digit value but are not decimal. *)
Definition isdigit (c : ascii) : bool :=
  isdecimal c || (ord c =? 178)%nat || (ord c =? 179)%nat
  || (ord c =? 185)%nat.

Definition digit_value (c : ascii) : nat := (ord c - 48)%nat.

Fixpoint int_go (acc : nat) (s : string) : res nat :=
  match s with
  | EmptyString => Ok acc
  | String c s' =>
      if isdecimal c then int_go (10 * acc + digit_value c)%nat s'
      else Raise ValueError
  end.

(** [int(s)] for a string [s] of [isdigit] characters (the only
    arguments [int] receives in this program): the value in base 10,
    [ValueError] on the empty string and on a character that is not
    decimal. *)
Definition int (s : string) : res nat :=
  match s with
  | EmptyString => Raise ValueError
  | _ => int_go 0 s
  end.

(** [str(n)] and [f"{n}"] for an integer. *)
Definition str_of_int (n : Z) : string := NilZero.string_of_int (Z.to_int n).

(** [f"{n:02d}"], the way [strftime] prints [%H] and [%M]. *)
Definition pad2 (n : nat) : string :=
  if (n <? 10)%nat then "0" +:+ str_of_int (Z.of_nat n)
  else str_of_int (Z.of_nat n).

(** [s[:n]] and [s[n:]]. *)
Fixpoint str_take (n : nat) (s : string) : string :=
  match n, s with
  | S n', String c s' => String c (str_take n' s')
  | _, _ => EmptyString
  end.

Fixpoint str_drop (n : nat) (s : string) : string :=
  match n, s with
  | S n', String _ s' => str_drop n' s'
  | _, _ => s
  end.

(** [s[i]], a one-character string. *)
Fixpoint str_index (s : string) (i : nat) : res string :=
  match s, i with
  | EmptyString, _ => Raise IndexError
  | String c _, O => Ok (String c EmptyString)
  | String _ s', S i' => str_index s' i'
  end.

(** ["".join(filter(p, s))]. *)
Fixpoint str_filter (p : ascii -> bool) (s : string) : string :=
  match s with
  | EmptyString => EmptyString
  | String c s' => if p c then String c (str_filter p s') else str_filter p s'
  end.

(** Truth value of a string: non-empty. *)
Definition truthy (s : string) : bool :=
  match s with EmptyString => false | _ => true end.

(** *** Regular expressions, as [re.match] runs them

    Ordered alternatives with backtracking; a match need not reach the
    end of the subject. *)
Inductive regex :=
| Lit (c : ascii)
| Range (lo hi : ascii)
| Digit
| Cat (r1 r2 : regex)
| Alt (r1 r2 : regex)
| Group (name : string) (r : regex).

Definition groupdict := list (string * string).

(** [re_go r subject pos s g k]: match [r] at offset [pos] of [subject],
    where [s] is [subject[pos:]]; on success continue with [k]. *)
Fixpoint re_go {A} (r : regex) (subject : string) (pos : nat) (s : string)
         (g : groupdict) (k : nat -> string -> groupdict -> option A)
  : option A :=
  match r with
  | Lit c =>
      match s with
      | String c' s' => if Ascii.eqb c' c then k (S pos) s' g else None
      | EmptyString => None
      end
  | Range lo hi =>
      match s with
      | String c' s' =>
          if (ord lo <=? ord c')%nat && (ord c' <=? ord hi)%nat
          then k (S pos) s' g else None
      | EmptyString => None
      end
  | Digit =>
      match s with
      | String c' s' => if isdecimal c' then k (S pos) s' g else None
      | EmptyString => None
      end
  | Cat r1 r2 =>
      re_go r1 subject pos s g (fun pos' s' g' => re_go r2 subject pos' s' g' k)
  | Alt r1 r2 =>
      match re_go r1 subject pos s g k with
      | Some x => Some x
      | None => re_go r2 subject pos s g k
      end
  | Group name r =>
      re_go r subject pos s g (fun pos' s' g' =>
        k pos' s' ((name, substring pos (pos' - pos) subject) :: g'))
  end.

(** [re.match(r, s)]: the end offset of the match and its groups. *)
Definition re_match (r : regex) (s : string) : option (nat * groupdict) :=
  re_go r s 0 s [] (fun pos' _ g => Some (pos', g)).

Fixpoint group (g : groupdict) (name : string) : string :=
  match g with
  | [] => EmptyString
  | (n, v) :: g' => if String.eqb n name then v else group g' name
  end.

(** [_strptime]'s table: [%H] is [(?P<H>2[0-3]|[0-1]\d|\d)] and [%M] is
    [(?P<M>[0-5]\d|\d)]. *)
Definition hour_alternatives : regex :=
  Alt (Cat (Lit "2") (Range "0" "3")) (Alt (Cat (Range "0" "1") Digit) Digit).

Definition minute_alternatives : regex :=
  Alt (Cat (Range "0" "5") Digit) Digit.

Definition directive_H : regex := Group "H" hour_alternatives.

Definition directive_M : regex := Group "M" minute_alternatives.

(** The compiled format ["%H:%M"]. *)
Definition format_regex : regex :=
  Cat directive_H (Cat (Lit ":") directive_M).

(** A [datetime.time] with zero seconds, as [strptime(...).time()]
    returns for this format. *)
Record time := mk_time { hour : nat; minute : nat }.

(** [datetime.strptime(data_string, "%H:%M").time()]. *)
Definition strptime (data_string : string) : res time :=
  match re_match format_regex data_string with
  | None => Raise ValueError
  | Some (fin, found_dict) =>
      if negb (String.length data_string =? fin)%nat then Raise ValueError
      else
        bind (int (group found_dict "H")) (fun h =>
        bind (int (group found_dict "M")) (fun m =>
        Ok (mk_time h m)))
  end.

(** [t.strftime("%H:%M")]. *)
Definition strftime (t : time) : string :=
  pad2 (hour t) +:+ ":" +:+ pad2 (minute t).

(** The invariant of every [datetime.time]. *)
Definition time_ok (t : time) : Prop := (hour t < 24)%nat /\ (minute t < 60)%nat.

Definition timedelta := Z.
Definition datetime := Z.

Definition days (n : Z) : timedelta := (86400 * n)%Z.

Definition time_min : time := mk_time 0 0.

(** [datetime.combine(d, t)]: the date of [d] at the time [t]. *)
Definition combine (d : datetime) (t : time) : datetime :=
  (86400 * (d / 86400) + 3600 * Z.of_nat (hour t) + 60 * Z.of_nat (minute t))%Z.

End Py.

Import Py.

(** ** The program *)

Module App.

(** *** Helper functions *)

Definition format_timedelta (td : option timedelta) : string :=
  match td with
  | None => "0h 0m"
  | Some td =>
      let total_seconds := td in
      let hours := (total_seconds / 3600)%Z in
      let minutes := ((total_seconds mod 3600) / 60)%Z in
      str_of_int hours +:+ "h " +:+ str_of_int minutes +:+ "m"
  end.

Definition base_date : datetime := 0%Z.

(** The body of the [try] block of [calculate_time_difference]. *)
Definition time_difference_body (in_time_str out_time_str : string)
  : res timedelta :=
  bind (strptime in_time_str) (fun t_in =>
  let start_datetime := combine base_date t_in in
  bind (if String.eqb out_time_str "24:00"
        then Ok (combine base_date time_min + days 1)%Z
        else bind (strptime out_time_str) (fun t_out =>
             Ok (combine base_date t_out))) (fun end_datetime =>
  let end_datetime :=
    if (end_datetime <? start_datetime)%Z
    then (end_datetime + days 1)%Z else end_datetime in
  Ok (end_datetime - start_datetime)%Z)).

Definition calculate_time_difference (in_time_str out_time_str : string)
  : res timedelta :=
  try_except (time_difference_body in_time_str out_time_str)
             is_ValueError_or_TypeError (Ok 0%Z).

Definition format_time_input (time_str : string) : res string :=
  if negb (truthy time_str) then Ok ""
  else
    let digits := str_take 4 (str_filter isdigit time_str) in
    if (String.length digits =? 3)%nat then
      bind (int (str_take 2 digits)) (fun n =>
      if (23 <? n)%nat then
        bind (str_index digits 0) (fun d0 =>
        Ok ("0" +:+ d0 +:+ ":" +:+ str_drop 1 digits))
      else Ok (str_take 2 digits +:+ ":" +:+ str_drop 2 digits))
    else if (String.length digits =? 4)%nat then
      Ok (str_take 2 digits +:+ ":" +:+ str_drop 2 digits)
    else Ok digits.

(** *** Session state and callbacks

    [st.session_state] restricted to the text fields: a dictionary from
    the keys ["in_<day>"] and ["out_<day>"] to the field texts. *)
Abbreviation session_state := (gmap string string).

Definition days : list string :=
  ["Monday"; "Tuesday"; "Wednesday"; "Thursday"; "Friday"; "Saturday";
   "Sunday"].

Definition in_key (day : string) : string := "in_" +:+ day.
Definition out_key (day : string) : string := "out_" +:+ day.

Definition getitem (st : session_state) (key : string) : res string :=
  match st !! key with
  | Some v => Ok v
  | None => Raise KeyError
  end.

Definition format_input_callback (day field : string) (st : session_state)
  : res session_state :=
  let key := field +:+ "_" +:+ day in
  match st !! key with
  | Some raw_value =>
      bind (format_time_input raw_value) (fun formatted_value =>
      Ok (<[key := formatted_value]> st))
  | None => Ok st
  end.

(** [now] is the reading of the wall clock, [datetime.now()]. *)
Definition end_now_callback (now : time) (day : string) (st : session_state)
  : session_state :=
  <[out_key day := strftime now]> st.

Definition clear_day_callback (day : string) (st : session_state)
  : session_state :=
  <[out_key day := ""]> (<[in_key day := ""]> st).

Definition reset_all_callback (st : session_state) : session_state :=
  fold_left (fun st day => clear_day_callback day st) days st.

(** The state the script sets up on its first run, when ['days'] is not in
    it yet: the two fields of every day, empty. *)
Definition initial_state : session_state := reset_all_callback ∅.

(** *** The page script, one row per day *)

Inductive cell :=
| ErrorBox (msg : string)       (* st.error *)
| Markdown (html : string).     (* st.markdown *)

Record row := mk_row {
  error_in_row : bool;
  end_now_button : bool;
  daily_duration : timedelta;
  duration_suffix : string;
  result_cell : cell
}.

Definition validate_in (in_time : string) : res bool :=
  if truthy in_time && (String.length in_time =? 5)%nat then
    try_except
      (bind (if String.eqb in_time "24:00" then Raise ValueError else Ok tt)
         (fun _ => bind (strptime in_time) (fun _ => Ok false)))
      is_ValueError (Ok true)
  else Ok false.

Definition validate_out (out_time : string) (error_in_row : bool) : res bool :=
  if truthy out_time && negb error_in_row && (String.length out_time =? 5)%nat
  then
    try_except
      (if negb (String.eqb out_time "24:00")
       then bind (strptime out_time) (fun _ => Ok error_in_row)
       else Ok error_in_row)
      is_ValueError (Ok true)
  else Ok error_in_row.

Definition day_row (now : time) (in_time out_time : string) : res row :=
  bind (validate_in in_time) (fun error_in =>
  bind (validate_out out_time error_in) (fun error_in_row =>
  let end_now :=
    negb error_in_row && truthy in_time && negb (truthy out_time) in
  bind (if negb error_in_row && (String.length in_time =? 5)%nat
           && (String.length out_time =? 5)%nat
        then bind (calculate_time_difference in_time out_time) (fun d =>
             Ok (d, ""))
        else if negb error_in_row && (String.length in_time =? 5)%nat
                && negb (truthy out_time)
        then
          let current_time_str := strftime now in
          bind (calculate_time_difference in_time current_time_str) (fun d =>
          Ok (d, " (so far)"))
        else Ok (0%Z, "")) (fun '(daily_duration, duration_suffix) =>
  let cell :=
    if error_in_row then ErrorBox "Not a real time"
    else
      let display_text := format_timedelta (Some daily_duration) in
      Markdown ("<div style='text-align: center; padding-top: 8px;'>"
                +:+ display_text +:+ duration_suffix +:+ "</div>") in
  Ok (mk_row error_in_row end_now daily_duration duration_suffix cell)))).

(** The [for day in st.session_state.days] loop, threading
    [total_duration] and collecting the rows.  The loop reads the two
    fields of a day with [st.session_state[...]]; the properties below are
    about states that hold these fields, the states the script sets up and
    its callbacks keep. *)
Fixpoint page_loop (now : time) (st : session_state) (ds : list string)
         (total_duration : timedelta) (rows : list row)
  : res (list row * timedelta) :=
  match ds with
  | [] => Ok (rows, total_duration)
  | day :: ds' =>
      bind (getitem st (in_key day)) (fun in_time =>
      bind (getitem st (out_key day)) (fun out_time =>
      bind (day_row now in_time out_time) (fun r =>
      page_loop now st ds' (total_duration + daily_duration r)%Z
                (rows ++ [r]))))
  end.

(** One run of the script: the rows, [total_duration] and the text of
    the total. *)
Definition page (now : time) (st : session_state)
  : res (list row * timedelta * string) :=
  bind (page_loop now st days 0%Z []) (fun '(rows, total_duration) =>
  Ok (rows, total_duration, format_timedelta (Some total_duration))).

End App.

Import App.

(** ** The specification's notions *)

Module Spec.

(** A duration of [n] whole minutes. *)
Definition minutes (n : Z) : timedelta := (60 * n)%Z.

(** The clock offset of a time of day, in minutes after midnight. *)
Definition clock_minutes (t : time) : Z :=
  (60 * Z.of_nat (hour t) + Z.of_nat (minute t))%Z.

(** A semantically valid text ['HH:MM']: two digits of an hour 0-23, a
    colon, two digits of a minute 0-59. *)
Definition is_clock_text (s : string) : Prop :=
  exists t, time_ok t /\ s = strftime t.

(** The two-digit number [d0 d1]. *)
Definition two_digit_number (d0 d1 : ascii) : nat :=
  (10 * digit_value d0 + digit_value d1)%nat.

(** The reference algorithm of the normalizer, in the specification's
    words: strip the non-digit characters, keep at most four digits, and
    shape the result by the number of digits left. *)
Definition normalize (raw : string) : string :=
  match str_take 4 (str_filter isdecimal raw) with
  | String d0 (String d1 (String d2 EmptyString)) =>
      if (23 <? two_digit_number d0 d1)%nat
      then String "0" (String d0 (String ":" (String d1 (String d2 ""))))
      else String d0 (String d1 (String ":" (String d2 "")))
  | String d0 (String d1 (String d2 (String d3 _))) =>
      String d0 (String d1 (String ":" (String d2 (String d3 ""))))
  | digits => digits
  end.

(** The error state of a day record: the in-text is fully typed and is
    not a valid time or is the sentinel, or else the out-text is fully
    typed, is not the sentinel and is not a valid time. *)
Definition in_error (in_text : string) : Prop :=
  String.length in_text = 5%nat
  /\ (~ is_clock_text in_text \/ in_text = "24:00").

Definition out_error (out_text : string) : Prop :=
  String.length out_text = 5%nat /\ out_text <> "24:00"
  /\ ~ is_clock_text out_text.

Definition error_state (in_text out_text : string) : Prop :=
  in_error in_text \/ (~ in_error in_text /\ out_error out_text).

(** The elapsed time between two clock readings, the out-reading moved
    to the next day when it is earlier on the clock. *)
Definition elapsed_minutes (t_in t_out : time) : Z :=
  if (clock_minutes t_in <=? clock_minutes t_out)%Z
  then (clock_minutes t_out - clock_minutes t_in)%Z
  else (clock_minutes t_out + 24 * 60 - clock_minutes t_in)%Z.

End Spec.

(** ** Auxiliary notions for the statements and the proofs *)

(** The row the script draws for one day of a session state. *)
Definition row_of (now : time) (st : gmap string string) (day : string)
  : res row :=
  bind (getitem st (in_key day)) (fun in_time =>
  bind (getitem st (out_key day)) (fun out_time =>
  day_row now in_time out_time)).

(** The result cell of a row without error. *)
Definition duration_cell (d : timedelta) (suffix : string) : cell :=
  Markdown ("<div style='text-align: center; padding-top: 8px;'>"
            +:+ format_timedelta (Some d) +:+ suffix +:+ "</div>").

Definition sum_durations (rows : list row) : timedelta :=
  fold_right Z.add 0%Z (map daily_duration rows).

(** Every day has its two fields in the session state. *)
Definition has_day_fields (st : gmap string string) : Prop :=
  forall day, In day days ->
    is_Some (st !! in_key day) /\ is_Some (st !! out_key day).

(** A superscript two, U+00B2. *)
Definition superscript_two : ascii := ascii_of_nat 178.

(** The words a regular expression matches. *)
Fixpoint lang (r : regex) (w : string) : Prop :=
  match r with
  | Lit c => w = String c EmptyString
  | Range lo hi =>
      exists c, w = String c EmptyString /\ (ord lo <= ord c <= ord hi)%nat
  | Digit => exists c, w = String c EmptyString /\ isdecimal c = true
  | Cat r1 r2 => exists w1 w2, w = w1 +:+ w2 /\ lang r1 w1 /\ lang r2 w2
  | Alt r1 r2 => lang r1 w \/ lang r2 w
  | Group _ r => lang r w
  end.

Fixpoint nogroup (r : regex) : bool :=
  match r with
  | Lit _ | Range _ _ | Digit => true
  | Cat r1 r2 | Alt r1 r2 => nogroup r1 && nogroup r2
  | Group _ _ => false
  end.

(** Finite checks, decided by evaluation. *)
Definition res_time_eqb (r : res time) (t : time) : bool :=
  match r with
  | Ok t' => (hour t' =? hour t)%nat && (minute t' =? minute t)%nat
  | Raise _ => false
  end.

Definition for_all_clock_times (p : time -> bool) : bool :=
  forallb (fun h => forallb (fun m => p (mk_time h m)) (seq 0 60)) (seq 0 24).

Definition for_all_digit_pairs (p : nat -> nat -> bool) : bool :=
  forallb (fun a => forallb (fun b => p a b) (seq 0 10)) (seq 0 10).

(** Every character of a text passes a test. *)
Fixpoint str_forall (p : ascii -> bool) (s : string) : bool :=
  match s with
  | EmptyString => true
  | String c s' => p c && str_forall p s'
  end.

(** A text none of whose [isdigit] characters is a superscript. *)
Definition digits_are_decimal (s : string) : bool :=
  str_forall (fun c => implb (isdigit c) (isdecimal c)) s.

(** The text ['1', U+00B2, '3']. *)
Definition one_squared_three : string :=
  String "1" (String superscript_two (String "3" "")).

(** The texts [strptime] reads as the number [n]: its two digits, and its
    one digit when it has no more. *)
Definition number_texts (n : nat) : list string :=
  pad2 n :: (if (n <? 10)%nat then [str_of_int (Z.of_nat n)] else []).

(** The texts [strptime] reads as the time [t]. *)
Definition time_texts (t : time) : list string :=
  flat_map (fun hs => map (fun ms => hs +:+ ":" +:+ ms)
                          (number_texts (minute t)))
           (number_texts (hour t)).

(** The key [f"{field}_{day}"] of [format_input_callback]. *)
Definition field_key (field day : string) : string := field +:+ "_" +:+ day.

(** [key] is one of the two field keys of a day of [ds]. *)
Definition is_field_key (ds : list string) (key : string) : bool :=
  existsb (fun day => String.eqb key (in_key day) || String.eqb key (out_key day))
          ds.

(** A week with two complete days: Monday 09:00 to 17:30 and Tuesday
    22:00 to 06:00 of the next day. *)
Definition sample_week : gmap string string :=
  <[out_key "Tuesday" := "06:00"]>
    (<[in_key "Tuesday" := "22:00"]>
       (<[out_key "Monday" := "17:30"]>
          (<[in_key "Monday" := "09:00"]> initial_state))).

(** The same week with Wednesday begun at 09:00 and not ended. *)
Definition sample_week_so_far : gmap string string :=
  <[in_key "Wednesday" := "09:00"]> sample_week.

(** The row of a day whose two fields are empty. *)
Definition blank_row : row :=
  mk_row false false 0%Z "" (duration_cell 0%Z "").

Definition res_string_eqb (r : res string) (s : string) : bool :=
  match r with
  | Ok s' => String.eqb s' s
  | Raise _ => false
  end.

(** The shapes of the texts the normalizer returns. *)
Definition normalized_shape (out : string) : Prop :=
  out = ""
  \/ (exists a, isdigit a = true /\ out = String a "")
  \/ (exists a b, isdigit a = true /\ isdigit b = true
                  /\ out = String a (String b ""))
  \/ (exists a b c, isdecimal a = true /\ isdecimal b = true
                    /\ isdigit c = true
                    /\ (Spec.two_digit_number a b <= 23)%nat
                    /\ out = String a (String b (String ":" (String c ""))))
  \/ (exists a b c d, isdigit a = true /\ isdigit b = true
                      /\ isdigit c = true /\ isdigit d = true
                      /\ out = String a (String b (String ":"
                                (String c (String d ""))))).

(** Splits a [str_forall] fact over a text of known shape into the facts of
    its characters. *)
Ltac split_forall H :=
  repeat (cbn [str_forall] in H;
          let Hc := fresh "Hc" in
          apply andb_true_iff in H as [Hc H]).

(** * Properties *)

#[local] Arguments String.append : simpl nomatch.

(** ** The examples of the specification *)

Example strptime_examples :
  strptime "09:30" = Ok (mk_time 9 30)
  /\ strptime "23:59" = Ok (mk_time 23 59)
  /\ strptime "9:5" = Ok (mk_time 9 5)
  /\ strptime "24:00" = Raise ValueError
  /\ strptime "25:30" = Raise ValueError
  /\ strptime "12:60" = Raise ValueError
  /\ strptime "12:345" = Raise ValueError
  /\ strptime "" = Raise ValueError.
Proof. repeat split. Qed.

Example elapsed_examples :
  calculate_time_difference "09:00" "17:30" = Ok (Spec.minutes (8 * 60 + 30))
  /\ calculate_time_difference "22:00" "06:00" = Ok (Spec.minutes (8 * 60))
  /\ calculate_time_difference "08:00" "08:00" = Ok 0%Z
  /\ calculate_time_difference "25:30" "09:00" = Ok 0%Z.
Proof. repeat split. Qed.

Example normalize_examples :
  format_time_input "09:30" = Ok "09:30"
  /\ format_time_input "545" = Ok "05:45"
  /\ format_time_input "123" = Ok "12:3"
  /\ format_time_input "0930" = Ok "09:30"
  /\ format_time_input "2530" = Ok "25:30"
  /\ format_time_input "" = Ok "".
Proof. repeat split. Qed.

Example format_examples :
  bind (calculate_time_difference "09:00" "17:15")
       (fun d => Ok (format_timedelta (Some d)))
  = Ok "8h 15m".
Proof. reflexivity. Qed.

Example reset_all_example (now : time) :
  exists rows,
    page now (reset_all_callback
                (<[in_key "Friday" := "09:00"]>
                   (<[out_key "Friday" := "17:00"]> initial_state)))
    = Ok (rows, 0%Z, "0h 0m").
Proof. eexists. vm_compute. reflexivity. Qed.

(** ** Strings *)

Lemma str_length_app (a b : string) :
  String.length (a +:+ b) = (String.length a + String.length b)%nat.
Proof. induction a as [|c a IH]; cbn; [reflexivity | now rewrite IH]. Qed.

Lemma str_app_assoc (a b c : string) : (a +:+ b) +:+ c = a +:+ (b +:+ c).
Proof. induction a as [|x a IH]; cbn; [reflexivity | now rewrite IH]. Qed.

Lemma str_app_empty_r (a : string) : a +:+ "" = a.
Proof. induction a as [|x a IH]; cbn; [reflexivity | now rewrite IH]. Qed.

Lemma substring_prefix (w s : string) :
  substring 0 (String.length w) (w +:+ s) = w.
Proof.
  induction w as [|c w IH]; cbn.
  - now destruct s.
  - now rewrite IH.
Qed.

Lemma substring_skip (p w s : string) :
  substring (String.length p) (String.length w) (p +:+ w +:+ s) = w.
Proof.
  induction p as [|c p IH]; cbn.
  - apply substring_prefix.
  - exact IH.
Qed.

Lemma length_zero (s : string) : String.length s = 0%nat -> s = "".
Proof. destruct s; [reflexivity | discriminate]. Qed.

(** ** The matcher finds only words of the expression *)

Lemma re_go_sound {A} (r : regex) :
  nogroup r = true ->
  forall subject pos s g (k : nat -> string -> groupdict -> option A) x,
    re_go r subject pos s g k = Some x ->
    exists w s', s = w +:+ s' /\ lang r w
                 /\ k (pos + String.length w)%nat s' g = Some x.
Proof.
  induction r as [c | lo hi | | r1 IH1 r2 IH2 | r1 IH1 r2 IH2 | name r IH];
    cbn [nogroup re_go lang]; intros Hng subject pos s g k x Hgo.
  - destruct s as [|c' s']; [discriminate |].
    destruct (Ascii.eqb_spec c' c) as [-> | _]; [| discriminate].
    exists (String c ""), s'. cbn. rewrite Nat.add_1_r. auto.
  - destruct s as [|c' s']; [discriminate |].
    destruct (_ && _) eqn:Hr in Hgo; [| discriminate].
    apply andb_true_iff in Hr as [H1 H2].
    apply Nat.leb_le in H1, H2.
    exists (String c' ""), s'. cbn. rewrite Nat.add_1_r. eauto 6.
  - destruct s as [|c' s']; [discriminate |].
    destruct (isdecimal c') eqn:Hd; [| discriminate].
    exists (String c' ""), s'. cbn. rewrite Nat.add_1_r. eauto 6.
  - apply andb_true_iff in Hng as [Hn1 Hn2].
    apply (IH1 Hn1) in Hgo as (w1 & s1 & -> & Hw1 & Hgo).
    apply (IH2 Hn2) in Hgo as (w2 & s2 & -> & Hw2 & Hgo).
    exists (w1 +:+ w2), s2. rewrite str_length_app, str_app_assoc, Nat.add_assoc.
    eauto 8.
  - apply andb_true_iff in Hng as [Hn1 Hn2].
    destruct (re_go r1 subject pos s g k) eqn:H1.
    + injection Hgo as ->.
      apply (IH1 Hn1) in H1 as (w & s' & -> & Hw & Hk). eauto 8.
    + apply (IH2 Hn2) in Hgo as (w & s' & -> & Hw & Hk). eauto 8.
  - discriminate.
Qed.

(** ** Decimal digits and [int] *)

Lemma isdecimal_spec (c : ascii) :
  isdecimal c = true <-> (48 <= ord c <= 57)%nat.
Proof.
  unfold isdecimal. rewrite andb_true_iff, !Nat.leb_le. reflexivity.
Qed.

Lemma int_one (c : ascii) :
  isdecimal c = true -> int (String c "") = Ok (digit_value c).
Proof. intros H. unfold int, int_go. now rewrite H. Qed.

Lemma int_two (a b : ascii) :
  isdecimal a = true -> isdecimal b = true ->
  int (String a (String b "")) = Ok (10 * digit_value a + digit_value b)%nat.
Proof.
  intros Ha Hb. unfold int, int_go. rewrite Ha, Hb.
  now rewrite Nat.mul_0_r, Nat.add_0_l.
Qed.

Lemma int_go_raises (s : string) : forall acc e,
  int_go acc s = Raise e -> e = ValueError.
Proof.
  induction s as [|c s IH]; intros acc e; cbn [int_go]; [discriminate |].
  destruct (isdecimal c); [apply IH | congruence].
Qed.

Lemma int_raises (s : string) (e : exn) : int s = Raise e -> e = ValueError.
Proof.
  destruct s; unfold int; [congruence | apply int_go_raises].
Qed.

Lemma digit_value_lt (c : ascii) : isdecimal c = true -> (digit_value c < 10)%nat.
Proof. intros H%isdecimal_spec. unfold digit_value. lia. Qed.

(** Words of the two directives. *)
Lemma lang_H_inv (w : string) :
  lang directive_H w ->
  (exists a b, w = String a (String b "") /\ isdecimal a = true
               /\ isdecimal b = true
               /\ (10 * digit_value a + digit_value b < 24)%nat)
  \/ (exists a, w = String a "" /\ isdecimal a = true).
Proof.
  cbn [lang directive_H hour_alternatives].
  change (ord "0") with 48%nat. change (ord "1") with 49%nat.
  change (ord "3") with 51%nat.
  intros [(w1 & w2 & -> & -> & c & -> & Hc)
         | [(w1 & w2 & -> & (c0 & -> & Hc0) & c1 & -> & Hc1) | (c & -> & Hc)]].
  - left. exists "2"%char, c. repeat split.
    + apply isdecimal_spec. lia.
    + change (digit_value "2") with 2%nat. unfold digit_value. lia.
  - left. exists c0, c1. pose proof (proj1 (isdecimal_spec c1) Hc1).
    repeat split; trivial.
    + apply isdecimal_spec. lia.
    + unfold digit_value. lia.
  - right. eauto.
Qed.

Lemma lang_M_inv (w : string) :
  lang directive_M w ->
  (exists a b, w = String a (String b "") /\ isdecimal a = true
               /\ isdecimal b = true
               /\ (10 * digit_value a + digit_value b < 60)%nat)
  \/ (exists a, w = String a "" /\ isdecimal a = true).
Proof.
  cbn [lang directive_M minute_alternatives].
  change (ord "0") with 48%nat. change (ord "5") with 53%nat.
  intros [(w1 & w2 & -> & (c0 & -> & Hc0) & c1 & -> & Hc1) | (c & -> & Hc)].
  - left. exists c0, c1. pose proof (proj1 (isdecimal_spec c1) Hc1).
    repeat split; trivial.
    + apply isdecimal_spec. lia.
    + unfold digit_value. lia.
  - right. eauto.
Qed.

Lemma re_go_Cat {A} r1 r2 subject pos s g (k : nat -> string -> groupdict -> option A) :
  re_go (Cat r1 r2) subject pos s g k
  = re_go r1 subject pos s g (fun pos' s' g' => re_go r2 subject pos' s' g' k).
Proof. reflexivity. Qed.

Lemma re_go_Group {A} name r subject pos s g
      (k : nat -> string -> groupdict -> option A) :
  re_go (Group name r) subject pos s g k
  = re_go r subject pos s g (fun pos' s' g' =>
      k pos' s' ((name, substring pos (pos' - pos) subject) :: g')).
Proof. reflexivity. Qed.

Lemma re_go_Lit {A} c subject pos s g
      (k : nat -> string -> groupdict -> option A) x :
  re_go (Lit c) subject pos s g k = Some x ->
  exists s', s = String c s' /\ k (S pos) s' g = Some x.
Proof.
  cbn [re_go]. destruct s as [|c' s']; [discriminate |].
  destruct (Ascii.eqb_spec c' c) as [-> | _]; [eauto | discriminate].
Qed.

(** A successful [strptime] splits its argument into an hour word, a colon
    and a minute word, and reads the time off them. *)
Lemma strptime_Ok_split (s : string) (t : time) :
  strptime s = Ok t ->
  exists wh wm, s = wh +:+ ":" +:+ wm
    /\ lang directive_H wh /\ lang directive_M wm
    /\ int wh = Ok (hour t) /\ int wm = Ok (minute t).
Proof.
  unfold strptime, re_match.
  destruct (re_go format_regex s 0 s [] _) as [[fin found_dict]|] eqn:Hgo;
    [| discriminate].
  unfold format_regex, directive_H, directive_M in Hgo.
  rewrite re_go_Cat, re_go_Group in Hgo.
  apply re_go_sound in Hgo as (wh & s1 & Hs & Hwh & Hgo); [| reflexivity].
  rewrite re_go_Cat in Hgo.
  apply re_go_Lit in Hgo as (s2 & -> & Hgo).
  rewrite re_go_Group in Hgo.
  apply re_go_sound in Hgo as (wm & s3 & -> & Hwm & Hgo); [| reflexivity].
  injection Hgo as <- <-.
  rewrite Nat.sub_0_r.
  replace (String.length wh + String.length wm - String.length wh)%nat
    with (String.length wm) by lia.
  destruct (negb _) eqn:Hlen; [discriminate |].
  apply negb_false_iff, Nat.eqb_eq in Hlen.
  assert (s3 = "") as ->.
  { apply length_zero. rewrite Hs in Hlen.
    rewrite str_length_app in Hlen. cbn [String.length] in Hlen.
    rewrite str_length_app in Hlen. lia. }
  rewrite str_app_empty_r in Hs.
  cbn [group String.eqb Ascii.eqb Bool.eqb andb].
  assert (substring 0 (String.length wh) s = wh) as ->.
  { rewrite Hs. apply substring_prefix. }
  assert (substring (S (String.length wh)) (String.length wm) s = wm) as ->.
  { rewrite Hs.
    change (wh +:+ String ":" wm) with (wh +:+ ":" +:+ wm).
    rewrite <- (str_app_empty_r wm) at 2.
    rewrite <- str_app_assoc.
    replace (S (String.length wh)) with (String.length (wh +:+ ":"))
      by (rewrite str_length_app; cbn; lia).
    apply substring_skip. }
  intros H. exists wh, wm.
  destruct (int wh) as [h|]; [| discriminate].
  destruct (int wm) as [m|]; [| discriminate].
  injection H as <-. cbn. auto.
Qed.

(** [strptime] returns a time of the clock. *)
Lemma strptime_time_ok (s : string) (t : time) : strptime s = Ok t -> time_ok t.
Proof.
  intros (wh & wm & _ & Hh & Hm & Ih & Im)%strptime_Ok_split.
  split.
  - apply lang_H_inv in Hh as [(a & b & -> & Ha & Hb & Hlt) | (a & -> & Ha)].
    + rewrite int_two in Ih by trivial. injection Ih as <-. exact Hlt.
    + rewrite int_one in Ih by trivial. injection Ih as <-.
      apply digit_value_lt in Ha. lia.
  - apply lang_M_inv in Hm as [(a & b & -> & Ha & Hb & Hlt) | (a & -> & Ha)].
    + rewrite int_two in Im by trivial. injection Im as <-. exact Hlt.
    + rewrite int_one in Im by trivial. injection Im as <-.
      apply digit_value_lt in Ha. lia.
Qed.

(** [strptime] fails with [ValueError] only. *)
Lemma strptime_raises (s : string) (e : exn) :
  strptime s = Raise e -> e = ValueError.
Proof.
  unfold strptime.
  destruct (re_match format_regex s) as [[fin found_dict]|]; [| congruence].
  destruct (negb _); [congruence |].
  destruct (int (group found_dict "H")) as [h|e1] eqn:Hh; cbn.
  - destruct (int (group found_dict "M")) as [m|e2] eqn:Hm; cbn;
      [discriminate |].
    intros [= <-]. eapply int_raises, Hm.
  - intros [= <-]. eapply int_raises, Hh.
Qed.

(** ** [strftime] and [strptime] *)

Lemma for_all_clock_times_spec (p : time -> bool) (t : time) :
  for_all_clock_times p = true -> time_ok t -> p t = true.
Proof.
  unfold for_all_clock_times. intros Hall [Hh Hm]. destruct t as [h m].
  cbn [hour minute] in *.
  rewrite forallb_forall in Hall.
  specialize (Hall h ltac:(apply in_seq; lia)).
  rewrite forallb_forall in Hall.
  apply Hall, in_seq. lia.
Qed.

Lemma for_all_digit_pairs_spec (p : nat -> nat -> bool) (a b : nat) :
  for_all_digit_pairs p = true -> (a < 10)%nat -> (b < 10)%nat -> p a b = true.
Proof.
  unfold for_all_digit_pairs. intros Hall Ha Hb.
  rewrite forallb_forall in Hall.
  specialize (Hall a ltac:(apply in_seq; lia)).
  rewrite forallb_forall in Hall.
  apply Hall, in_seq. lia.
Qed.

Lemma strptime_strftime (t : time) :
  time_ok t -> strptime (strftime t) = Ok t.
Proof.
  intros Hok.
  assert (Hall : for_all_clock_times
            (fun t => res_time_eqb (strptime (strftime t)) t) = true)
    by (vm_compute; reflexivity).
  apply for_all_clock_times_spec with (t := t) in Hall; [| exact Hok].
  unfold res_time_eqb in Hall.
  destruct (strptime _) as [[h' m']|]; [| discriminate].
  destruct t as [h m]. cbn [hour minute] in Hall.
  apply andb_true_iff in Hall as [H1%Nat.eqb_eq H2%Nat.eqb_eq].
  now subst.
Qed.

Lemma strftime_length (t : time) :
  time_ok t -> String.length (strftime t) = 5%nat.
Proof.
  intros Hok. apply Nat.eqb_eq.
  apply (for_all_clock_times_spec
           (fun t => (String.length (strftime t) =? 5)%nat)); [| exact Hok].
  vm_compute; reflexivity.
Qed.

Lemma isdecimal_chr (c : ascii) :
  isdecimal c = true -> c = ascii_of_nat (48 + digit_value c).
Proof.
  intros H%isdecimal_spec. unfold digit_value, ord in *.
  replace (48 + (nat_of_ascii c - 48))%nat with (nat_of_ascii c) by lia.
  now rewrite ascii_nat_embedding.
Qed.

Lemma pad2_two_digits (a b : ascii) :
  isdecimal a = true -> isdecimal b = true ->
  pad2 (10 * digit_value a + digit_value b) = String a (String b "").
Proof.
  intros Ha Hb.
  pose proof (for_all_digit_pairs_spec
    (fun a b => String.eqb (pad2 (10 * a + b))
       (String (ascii_of_nat (48 + a)) (String (ascii_of_nat (48 + b)) "")))
    (digit_value a) (digit_value b) ltac:(vm_compute; reflexivity)
    (digit_value_lt a Ha) (digit_value_lt b Hb)) as Hall.
  cbv beta in Hall. apply String.eqb_eq in Hall.
  now rewrite <- (isdecimal_chr a), <- (isdecimal_chr b) in Hall.
Qed.

(** On a five-character text [strptime] is strict: it accepts exactly the
    two-digit forms that [strftime] prints. *)
Lemma strptime_len5 (s : string) (t : time) :
  String.length s = 5%nat -> strptime s = Ok t -> s = strftime t.
Proof.
  intros Hlen (wh & wm & -> & Hh & Hm & Ih & Im)%strptime_Ok_split.
  rewrite str_length_app in Hlen. cbn [String.append String.length] in Hlen.
  destruct t as [h m]; cbn [hour minute] in *. unfold strftime; cbn [hour minute].
  apply lang_H_inv in Hh as [(a & b & -> & Ha & Hb & _) | (a & -> & Ha)];
    apply lang_M_inv in Hm as [(c & d & -> & Hc & Hd & _) | (c & -> & Hc)];
    cbn in Hlen; try lia.
  rewrite int_two in Ih, Im by trivial.
  assert (h = 10 * digit_value a + digit_value b)%nat as -> by congruence.
  assert (m = 10 * digit_value c + digit_value d)%nat as -> by congruence.
  now rewrite !pad2_two_digits by trivial.
Qed.

(** The valid five-character texts are those [strptime] accepts. *)
Lemma is_clock_text_strptime (s : string) :
  String.length s = 5%nat ->
  Spec.is_clock_text s <-> exists t, strptime s = Ok t.
Proof.
  intros Hlen. split.
  - intros (t & Hok & ->). exists t. now apply strptime_strftime.
  - intros (t & Ht). exists t. split.
    + eapply strptime_time_ok, Ht.
    + now apply strptime_len5.
Qed.

Lemma is_clock_text_length (s : string) :
  Spec.is_clock_text s -> String.length s = 5%nat.
Proof. intros (t & Hok & ->). now apply strftime_length. Qed.

Lemma sentinel_not_clock_text : ~ Spec.is_clock_text "24:00".
Proof.
  intros H. apply is_clock_text_strptime in H as [t Ht]; [| reflexivity].
  discriminate Ht.
Qed.

(** The valid texts, character by character. *)
Lemma is_clock_text_chars (s : string) :
  Spec.is_clock_text s <->
  exists a b c d,
    s = String a (String b (String ":" (String c (String d ""))))
    /\ isdecimal a = true /\ isdecimal b = true
    /\ isdecimal c = true /\ isdecimal d = true
    /\ (Spec.two_digit_number a b < 24)%nat
    /\ (Spec.two_digit_number c d < 60)%nat.
Proof.
  unfold Spec.two_digit_number. split.
  - intros Hs. pose proof (is_clock_text_length s Hs) as Hlen.
    apply is_clock_text_strptime in Hs as [t Ht]; [| exact Hlen].
    apply strptime_Ok_split in Ht as (wh & wm & -> & Hh & Hm & _).
    rewrite str_length_app in Hlen. cbn [String.append String.length] in Hlen.
    apply lang_H_inv in Hh as [(a & b & -> & Ha & Hb & Hlt) | (a & -> & Ha)];
      apply lang_M_inv in Hm as [(c & d & -> & Hc & Hd & Hlt') | (c & -> & Hc)];
      cbn in Hlen; try lia.
    exists a, b, c, d. cbn. auto 10.
  - intros (a & b & c & d & -> & Ha & Hb & Hc & Hd & Hh & Hm).
    exists (mk_time (10 * digit_value a + digit_value b)
                    (10 * digit_value c + digit_value d)).
    split; [split; assumption |].
    unfold strftime. cbn [hour minute].
    now rewrite !pad2_two_digits by trivial.
Qed.

(** ** The interval calculator *)

Lemma combine_base (t : time) :
  combine base_date t = Spec.minutes (Spec.clock_minutes t).
Proof.
  unfold combine, base_date, Spec.minutes, Spec.clock_minutes.
  rewrite Z.div_0_l by lia. lia.
Qed.

Lemma clock_minutes_range (t : time) :
  time_ok t -> (0 <= Spec.clock_minutes t < 24 * 60)%Z.
Proof. unfold Spec.clock_minutes. intros [Hh Hm]. lia. Qed.

Lemma strftime_not_sentinel (t : time) :
  time_ok t -> String.eqb (strftime t) "24:00" = false.
Proof.
  intros Hok. apply String.eqb_neq. intros Heq.
  apply sentinel_not_clock_text. exists t. auto.
Qed.

(** The value of the calculator on two texts that parse. *)
Lemma calculate_parsed (a b : string) (t_in t_out : time) :
  strptime a = Ok t_in -> strptime b = Ok t_out ->
  calculate_time_difference a b
  = Ok (Spec.minutes (Spec.elapsed_minutes t_in t_out)).
Proof.
  intros Ha Hb.
  unfold calculate_time_difference, time_difference_body. rewrite Ha. cbn [bind].
  destruct (String.eqb_spec b "24:00") as [-> | _]; [discriminate Hb |].
  rewrite Hb. cbn [bind try_except]. rewrite !combine_base.
  unfold Spec.elapsed_minutes, Spec.minutes, Py.days. f_equal.
  destruct (Z.ltb_spec (60 * Spec.clock_minutes t_out)
                       (60 * Spec.clock_minutes t_in));
    destruct (Z.leb_spec (Spec.clock_minutes t_in) (Spec.clock_minutes t_out));
    lia.
Qed.

(** The value of the calculator at the end-of-day sentinel. *)
Lemma calculate_sentinel_out (a : string) (t_in : time) :
  strptime a = Ok t_in ->
  calculate_time_difference a "24:00"
  = Ok (Spec.minutes (24 * 60 - Spec.clock_minutes t_in)).
Proof.
  intros Ha. pose proof (clock_minutes_range t_in (strptime_time_ok _ _ Ha)).
  unfold calculate_time_difference, time_difference_body. rewrite Ha.
  cbn [bind String.eqb Ascii.eqb Bool.eqb andb try_except].
  rewrite !combine_base.
  unfold Spec.minutes, Py.days in *.
  change (Spec.clock_minutes time_min) with 0%Z.
  destruct (Z.ltb_spec (60 * 0 + 86400 * 1) (60 * Spec.clock_minutes t_in));
    f_equal; lia.
Qed.

(** A text that does not parse gives a zero duration. *)
Lemma calculate_in_fails (a b : string) (e : exn) :
  strptime a = Raise e -> calculate_time_difference a b = Ok 0%Z.
Proof.
  intros Ha. rewrite (strptime_raises _ _ Ha) in Ha.
  unfold calculate_time_difference, time_difference_body. now rewrite Ha.
Qed.

Lemma calculate_out_fails (a b : string) (e : exn) :
  b <> "24:00" -> strptime b = Raise e ->
  calculate_time_difference a b = Ok 0%Z.
Proof.
  intros Hne Hb. rewrite (strptime_raises _ _ Hb) in Hb.
  unfold calculate_time_difference, time_difference_body.
  destruct (strptime a) as [t_in | e'] eqn:Ha.
  - cbn [bind]. destruct (String.eqb_spec b "24:00"); [contradiction |].
    now rewrite Hb.
  - now rewrite (strptime_raises _ _ Ha).
Qed.

Lemma elapsed_minutes_nonneg (t_in t_out : time) :
  time_ok t_in -> time_ok t_out -> (0 <= Spec.elapsed_minutes t_in t_out)%Z.
Proof.
  intros H1%clock_minutes_range H2%clock_minutes_range.
  unfold Spec.elapsed_minutes.
  destruct (Z.leb_spec (Spec.clock_minutes t_in) (Spec.clock_minutes t_out));
    lia.
Qed.

(** The calculator returns on all texts, and never a negative duration. *)
Lemma calculate_returns (a b : string) :
  exists d, calculate_time_difference a b = Ok d /\ (0 <= d)%Z.
Proof.
  destruct (strptime a) as [t_in | e] eqn:Ha.
  - destruct (String.eqb_spec b "24:00") as [-> | Hne].
    + rewrite (calculate_sentinel_out _ _ Ha). eexists; split; [reflexivity |].
      pose proof (clock_minutes_range t_in (strptime_time_ok _ _ Ha)).
      unfold Spec.minutes. lia.
    + destruct (strptime b) as [t_out | e] eqn:Hb.
      * rewrite (calculate_parsed _ _ _ _ Ha Hb).
        eexists; split; [reflexivity |].
        pose proof (elapsed_minutes_nonneg t_in t_out
                      (strptime_time_ok _ _ Ha) (strptime_time_ok _ _ Hb)).
        unfold Spec.minutes. lia.
      * rewrite (calculate_out_fails _ _ _ Hne Hb). exists 0%Z. split; [reflexivity | lia].
  - rewrite (calculate_in_fails _ _ _ Ha). exists 0%Z. split; [reflexivity | lia].
Qed.

(** C1. For two valid texts ['HH:MM'] the calculator returns the difference
    of the clock minutes when the out-time is not earlier than the in-time
    on the clock, and that difference plus 24 hours when it is earlier; a
    pair of equal times gives a zero duration, and the result is never
    negative. *)
Theorem elapsed_of_valid_pair (t_in t_out : time) :
  time_ok t_in -> time_ok t_out ->
  exists d,
    calculate_time_difference (strftime t_in) (strftime t_out) = Ok d
    /\ ((Spec.clock_minutes t_in <= Spec.clock_minutes t_out)%Z ->
        d = Spec.minutes (Spec.clock_minutes t_out - Spec.clock_minutes t_in))
    /\ ((Spec.clock_minutes t_out < Spec.clock_minutes t_in)%Z ->
        d = Spec.minutes
              (Spec.clock_minutes t_out + 24 * 60 - Spec.clock_minutes t_in))
    /\ (t_in = t_out -> d = 0%Z)
    /\ (0 <= d)%Z.
Proof.
  intros Hin Hout.
  exists (Spec.minutes (Spec.elapsed_minutes t_in t_out)).
  split; [apply calculate_parsed; now apply strptime_strftime |].
  pose proof (elapsed_minutes_nonneg _ _ Hin Hout) as Hnn.
  unfold Spec.elapsed_minutes, Spec.minutes in *.
  destruct (Z.leb_spec (Spec.clock_minutes t_in) (Spec.clock_minutes t_out));
    repeat split; intros; subst; lia.
Qed.

Lemma elapsed_of_valid_pair_witness :
  exists d,
    calculate_time_difference "22:00" "06:00" = Ok d
    /\ d = Spec.minutes (8 * 60).
Proof.
  destruct (elapsed_of_valid_pair (mk_time 22 0) (mk_time 6 0))
    as (d & Hd & _ & Hwrap & _).
  - split; cbn; lia.
  - split; cbn; lia.
  - exists d. split; [exact Hd |]. apply Hwrap. reflexivity.
Defined.

(** C2. With the sentinel ["24:00"] as out-time the calculator returns 24
    hours less the clock offset of a valid in-time; with the sentinel as
    in-time it returns a zero duration, whatever the out-time. *)
Theorem elapsed_sentinel (t_in : time) (out_text : string) :
  time_ok t_in ->
  calculate_time_difference (strftime t_in) "24:00"
  = Ok (Spec.minutes (24 * 60 - Spec.clock_minutes t_in))
  /\ calculate_time_difference "24:00" out_text = Ok 0%Z.
Proof.
  intros Hin. split.
  - apply calculate_sentinel_out. now apply strptime_strftime.
  - eapply calculate_in_fails. reflexivity.
Qed.

Lemma elapsed_sentinel_witness :
  calculate_time_difference "09:00" "24:00" = Ok (Spec.minutes (15 * 60))
  /\ calculate_time_difference "24:00" "09:00" = Ok 0%Z.
Proof.
  apply (elapsed_sentinel (mk_time 9 0) "09:00"). split; cbn; lia.
Defined.

(** C4. The calculator returns a duration on every pair of texts, never an
    error; the duration is zero when the in-text does not parse (the
    sentinel included) or when the out-text is not the sentinel and does not
    parse.  No text parses to an hour above 23 or a minute above 59; a
    five-character text that is not a valid ['HH:MM'] does not parse, nor
    does the empty text, nor the sentinel. *)
Theorem elapsed_total (a b : string) :
  exists d,
    calculate_time_difference a b = Ok d
    /\ (0 <= d)%Z
    /\ ((forall t, strptime a <> Ok t)
        \/ (b <> "24:00" /\ forall t, strptime b <> Ok t) -> d = 0%Z)
    /\ (forall s t, strptime s = Ok t -> (hour t <= 23)%nat /\ (minute t <= 59)%nat)
    /\ (forall s, String.length s = 5%nat ->
          ~ Spec.is_clock_text s -> forall t, strptime s <> Ok t)
    /\ (forall t, strptime "" <> Ok t)
    /\ (forall t, strptime "24:00" <> Ok t).
Proof.
  destruct (calculate_returns a b) as (d & Hd & Hnn).
  exists d. split; [exact Hd |]. split; [exact Hnn |].
  split; [| split; [| split; [| split]]]; try discriminate.
  2: { intros s t [Hh Hm]%strptime_time_ok. lia. }
  - intros [Ha | [Hne Hb]].
    + destruct (strptime a) as [t | e] eqn:Ea; [now destruct (Ha t) |].
      rewrite (calculate_in_fails _ _ _ Ea) in Hd. congruence.
    + destruct (strptime b) as [t | e] eqn:Eb; [now destruct (Hb t) |].
      rewrite (calculate_out_fails _ _ _ Hne Eb) in Hd. congruence.
  - intros s Hlen Hbad t Ht. apply Hbad.
    apply is_clock_text_strptime; eauto.
Qed.

(** ** The duration formatter *)

(** C9. The formatter prints ['{H}h {M}m'], [H] the whole hours of the
    duration (the floor of its seconds over 3600) and [M] the whole minutes
    of the rest, the seconds beyond dropped; an absent duration prints as a
    zero duration does, ["0h 0m"]; the hours are not clamped to 24. *)
Theorem format_timedelta_hours_minutes (d : timedelta) :
  exists H M : Z,
    format_timedelta (Some d) = str_of_int H +:+ "h " +:+ str_of_int M +:+ "m"
    /\ (3600 * H <= d < 3600 * (H + 1))%Z
    /\ (0 <= M < 60)%Z
    /\ (60 * M <= d - 3600 * H < 60 * (M + 1))%Z
    /\ ((24 * 3600 <= d)%Z -> (24 <= H)%Z)
    /\ format_timedelta None = "0h 0m"
    /\ format_timedelta (Some 0%Z) = "0h 0m"
    /\ format_timedelta (Some (Py.days 7 + 3600 + 59)%Z) = "169h 0m".
Proof.
  exists (d / 3600)%Z, ((d mod 3600) / 60)%Z.
  pose proof (Z.div_mod d 3600 ltac:(lia)) as Hd.
  pose proof (Z.mod_pos_bound d 3600 ltac:(lia)) as Hm.
  pose proof (Z.div_mod (d mod 3600) 60 ltac:(lia)) as Hd'.
  pose proof (Z.mod_pos_bound (d mod 3600) 60 ltac:(lia)) as Hm'.
  repeat split; try reflexivity; try lia.
Qed.

(** ** One row of the page *)

Lemma truthy_length5 (s : string) : String.length s = 5%nat -> truthy s = true.
Proof. destruct s; [discriminate | reflexivity]. Qed.

Lemma validate_in_spec (in_time : string) :
  exists e, validate_in in_time = Ok e /\ (e = true <-> Spec.in_error in_time).
Proof.
  unfold validate_in, Spec.in_error.
  destruct (Nat.eqb_spec (String.length in_time) 5) as [Hlen | Hlen].
  - rewrite (truthy_length5 _ Hlen). cbn [andb].
    destruct (String.eqb_spec in_time "24:00") as [-> | Hne].
    + exists true. cbn. intuition.
    + cbn [bind]. destruct (strptime in_time) as [t | e] eqn:Hp.
      * exists false. split; [reflexivity |]. split; [discriminate |].
        intros [_ [Hbad | Heq]]; [| contradiction].
        destruct Hbad. apply is_clock_text_strptime; eauto.
      * rewrite (strptime_raises _ _ Hp). exists true.
        split; [reflexivity |]. split; [| reflexivity]. intros _.
        split; [exact Hlen |]. left.
        intros [t Ht]%is_clock_text_strptime; [congruence | exact Hlen].
  - rewrite andb_false_r. exists false. split; [reflexivity |].
    split; [discriminate | tauto].
Qed.

Lemma validate_out_spec (out_time : string) :
  exists e, validate_out out_time false = Ok e
            /\ (e = true <-> Spec.out_error out_time).
Proof.
  unfold validate_out, Spec.out_error. cbn [negb]. rewrite andb_true_r.
  destruct (Nat.eqb_spec (String.length out_time) 5) as [Hlen | Hlen].
  - rewrite (truthy_length5 _ Hlen). cbn [andb].
    destruct (String.eqb_spec out_time "24:00") as [-> | Hne].
    + exists false. cbn. split; [reflexivity |]. split; [discriminate |].
      tauto.
    + cbn [negb]. destruct (strptime out_time) as [t | e] eqn:Hp.
      * exists false. split; [reflexivity |]. split; [discriminate |].
        intros (_ & _ & Hbad).
        destruct Hbad. apply is_clock_text_strptime; eauto.
      * rewrite (strptime_raises _ _ Hp). exists true.
        split; [reflexivity |]. split; [| reflexivity]. intros _.
        repeat split; trivial.
        intros [t Ht]%is_clock_text_strptime; [congruence | exact Hlen].
  - rewrite andb_false_r. exists false. split; [reflexivity |].
    split; [discriminate | tauto].
Qed.

Lemma validate_out_after_error (out_time : string) :
  validate_out out_time true = Ok true.
Proof. unfold validate_out. cbn [negb]. now rewrite andb_false_r. Qed.

(** The error flag of a row is the error state of its two texts. *)
Lemma validate_spec (in_time out_time : string) :
  exists e,
    bind (validate_in in_time) (validate_out out_time) = Ok e
    /\ (e = true <-> Spec.error_state in_time out_time).
Proof.
  destruct (validate_in_spec in_time) as ([|] & -> & Hin); cbn [bind].
  - rewrite validate_out_after_error. exists true. split; [reflexivity |].
    unfold Spec.error_state. tauto.
  - destruct (validate_out_spec out_time) as (e & -> & Hout). exists e.
    split; [reflexivity |]. unfold Spec.error_state.
    assert (~ Spec.in_error in_time) by (intros H; apply Hin in H; discriminate).
    tauto.
Qed.

(** What a row holds, by the error state of its texts. *)
Lemma day_row_spec (now : time) (in_time out_time : string) :
  exists r,
    day_row now in_time out_time = Ok r
    /\ (error_in_row r = true <-> Spec.error_state in_time out_time)
    /\ end_now_button r
       = negb (error_in_row r) && truthy in_time && negb (truthy out_time)
    /\ (error_in_row r = true ->
        daily_duration r = 0%Z /\ result_cell r = ErrorBox "Not a real time")
    /\ (error_in_row r = false ->
        result_cell r = duration_cell (daily_duration r) (duration_suffix r))
    /\ (error_in_row r = false -> String.length in_time = 5%nat ->
        String.length out_time = 5%nat ->
        calculate_time_difference in_time out_time = Ok (daily_duration r)
        /\ duration_suffix r = "")
    /\ (error_in_row r = false -> String.length in_time = 5%nat ->
        out_time = "" ->
        calculate_time_difference in_time (strftime now) = Ok (daily_duration r)
        /\ duration_suffix r = " (so far)")
    /\ (String.length in_time <> 5%nat
        \/ (String.length out_time <> 5%nat /\ out_time <> "") ->
        daily_duration r = 0%Z /\ duration_suffix r = "").
Proof.
  destruct (validate_spec in_time out_time) as (e & He & Hiff).
  unfold day_row.
  destruct (validate_in in_time) as [e1 |] eqn:H1; [| discriminate He].
  cbn [bind] in He |- *. rewrite He. cbn [bind].
  destruct e.
  - cbn [negb andb]. eexists. split; [reflexivity |]. cbn.
    repeat split; trivial; try discriminate; tauto.
  - cbn [negb andb].
    destruct (Nat.eqb_spec (String.length in_time) 5) as [Hi | Hi].
    + destruct (Nat.eqb_spec (String.length out_time) 5) as [Ho | Ho].
      * destruct (calculate_returns in_time out_time) as (d & Hd & _).
        rewrite Hd. cbn [bind]. eexists. split; [reflexivity |]. cbn.
        repeat split; trivial; try discriminate; try tauto; try lia.
        all: intros; subst; discriminate.
      * destruct out_time as [|c out_time]; cbn [truthy negb].
        -- destruct (calculate_returns in_time (strftime now)) as (d & Hd & _).
           rewrite Hd. cbn [bind]. eexists. split; [reflexivity |]. cbn.
           repeat split; trivial; try discriminate; try tauto; try lia.
           all: intros; try lia; try tauto.
           all: try (cbn in *; lia).
           all: intuition congruence.
        -- eexists. split; [reflexivity |]. cbn.
           repeat split; trivial; try discriminate; try tauto; try lia.
           all: intros; try discriminate; cbn in *; try lia.
    + cbn [andb]. eexists. split; [reflexivity |]. cbn.
      repeat split; trivial; try discriminate; try tauto; try lia.
      all: intros; try discriminate; cbn in *; try lia.
Qed.

Lemma page_loop_step (now : time) (st : gmap string string) (day : string)
      (ds : list string) (total : timedelta) (rows : list row) (r : row) :
  row_of now st day = Ok r ->
  page_loop now st (day :: ds) total rows
  = page_loop now st ds (total + daily_duration r)%Z (rows ++ [r]).
Proof.
  unfold row_of. cbn [page_loop].
  destruct (getitem st (in_key day)) as [i |]; [| discriminate].
  destruct (getitem st (out_key day)) as [o |]; [| discriminate].
  cbn [bind]. now intros ->.
Qed.

(** C5. A day record is in error state exactly when its in-text has five
    characters and is not a valid time or is ["24:00"], or else its out-text
    has five characters, is not ["24:00"] and is not a valid time; a day in
    error state adds nothing to the week total and shows the error box in
    place of a duration. *)
Theorem error_state_of_row (now : time) (in_text out_text : string) :
  exists r,
    day_row now in_text out_text = Ok r
    /\ (error_in_row r = true <-> Spec.error_state in_text out_text)
    /\ (error_in_row r = true ->
        daily_duration r = 0%Z
        /\ result_cell r = ErrorBox "Not a real time"
        /\ forall st day ds total rows,
             st !! in_key day = Some in_text ->
             st !! out_key day = Some out_text ->
             page_loop now st (day :: ds) total rows
             = page_loop now st ds total (rows ++ [r])).
Proof.
  destruct (day_row_spec now in_text out_text)
    as (r & Hr & Hiff & _ & Herr & _).
  exists r. repeat split; try tauto.
  intros st day ds total rows Hi Ho.
  rewrite (page_loop_step now st day ds total rows r).
  - destruct (Herr H) as [-> _]. now rewrite Z.add_0_r.
  - unfold row_of, getitem. now rewrite Hi, Ho.
Qed.

(** C6. For a day whose in-text is a valid five-character time and whose
    out-text is empty, the row shows the calculator's result against the
    clock reading printed as ['HH:MM'], marked ["(so far)"]; that duration
    is the time from the in-time to the reading, the reading taken on the
    next day when it is earlier on the clock, and is never negative. *)
Theorem so_far_duration (now : time) (in_text : string) :
  time_ok now -> String.length in_text = 5%nat -> Spec.is_clock_text in_text ->
  exists t_in r,
    in_text = strftime t_in
    /\ day_row now in_text "" = Ok r
    /\ error_in_row r = false
    /\ calculate_time_difference in_text (strftime now) = Ok (daily_duration r)
    /\ duration_suffix r = " (so far)"
    /\ result_cell r = duration_cell (daily_duration r) " (so far)"
    /\ daily_duration r = Spec.minutes (Spec.elapsed_minutes t_in now)
    /\ (0 <= daily_duration r)%Z.
Proof.
  intros Hnow Hlen (t_in & Hin & ->).
  destruct (day_row_spec now (strftime t_in) "")
    as (r & Hr & Hiff & _ & _ & Hcell & _ & Hsofar & _).
  assert (Herr : error_in_row r = false).
  { destruct (error_in_row r); [| reflexivity]. exfalso.
    destruct (proj1 Hiff eq_refl) as [[_ [Hbad | Heq]] | [_ [Ho _]]].
    - apply Hbad. exists t_in. auto.
    - apply sentinel_not_clock_text. rewrite <- Heq. exists t_in. auto.
    - discriminate Ho. }
  destruct (Hsofar Herr Hlen eq_refl) as [Hd Hs].
  exists t_in, r. repeat split; trivial.
  - rewrite (Hcell Herr). now rewrite Hs.
  - rewrite (calculate_parsed _ _ t_in now) in Hd
      by now apply strptime_strftime.
    congruence.
  - rewrite (calculate_parsed _ _ t_in now) in Hd
      by now apply strptime_strftime.
    injection Hd as <-.
    pose proof (elapsed_minutes_nonneg _ _ Hin Hnow). unfold Spec.minutes. lia.
Qed.

Lemma so_far_duration_witness :
  exists r,
    day_row (mk_time 1 30) "22:00" "" = Ok r
    /\ daily_duration r = Spec.minutes (3 * 60 + 30)
    /\ result_cell r = duration_cell (Spec.minutes (3 * 60 + 30)) " (so far)".
Proof.
  destruct (so_far_duration (mk_time 1 30) "22:00")
    as (t_in & r & Ht & Hr & _ & _ & _ & Hcell & Hd & _).
  - split; cbn; lia.
  - reflexivity.
  - exists (mk_time 22 0). split; [split; cbn; lia | reflexivity].
  - exists r. vm_compute in Hr. injection Hr as <-.
    split; [reflexivity |]. split; reflexivity.
Defined.

(** X18. The script draws the "End Now" button exactly when the in-text
    is not empty and not in error and the out-text is empty. *)
Lemma end_now_button_spec (now : time) (in_text out_text : string) :
  exists r,
    day_row now in_text out_text = Ok r
    /\ (end_now_button r = true
        <-> in_text <> "" /\ ~ Spec.in_error in_text /\ out_text = "").
Proof.
  destruct (day_row_spec now in_text out_text)
    as (r & Hr & Hiff & Hbtn & _).
  exists r. split; [exact Hr |]. rewrite Hbtn.
  rewrite !andb_true_iff, !negb_true_iff.
  assert (Ht : forall s, truthy s = true <-> s <> "")
    by (intros [|c s]; cbn; split; congruence).
  assert (Hf : forall s, truthy s = false <-> s = "")
    by (intros [|c s]; cbn; split; congruence).
  rewrite Ht, Hf.
  assert (Hno : error_in_row r = false <-> ~ Spec.error_state in_text out_text).
  { destruct (error_in_row r); split; intros H; try congruence.
    - exfalso. apply H. now apply Hiff.
    - intros He. apply Hiff in He. congruence. }
  rewrite Hno. unfold Spec.error_state, Spec.out_error. split.
  - intros [[Hne Hin] ->]. repeat split; tauto.
  - intros (Hin & Hne & ->). repeat split; trivial.
    intros [H | [_ [Hlen _]]]; [tauto | discriminate Hlen].
Qed.

(** C8. With the in-text ["9"], neither complete nor a time that parses,
    and an empty out-text, the script offers "End Now". *)
Theorem end_now_offered_for_partial_in_time (now : time) :
  exists r,
    day_row now "9" "" = Ok r
    /\ end_now_button r = true
    /\ error_in_row r = false
    /\ daily_duration r = 0%Z
    /\ strptime "9" = Raise ValueError
    /\ ~ Spec.is_clock_text "9".
Proof.
  eexists. split; [reflexivity |]. cbn. repeat split; trivial.
  intros H%is_clock_text_length. discriminate H.
Qed.

(** ** The week total *)

Lemma row_of_returns (now : time) (st : gmap string string) (day : string) :
  is_Some (st !! in_key day) -> is_Some (st !! out_key day) ->
  exists r, row_of now st day = Ok r.
Proof.
  intros [i Hi] [o Ho]. unfold row_of, getitem. rewrite Hi, Ho. cbn [bind].
  destruct (day_row_spec now i o) as (r & Hr & _). eauto.
Qed.

(** The loop adds the durations of the rows it draws to the total. *)
Lemma page_loop_spec (now : time) (st : gmap string string) (ds : list string) :
  (forall d, In d ds ->
     is_Some (st !! in_key d) /\ is_Some (st !! out_key d)) ->
  forall total rows,
  exists new,
    page_loop now st ds total rows
    = Ok (rows ++ new, (total + sum_durations new)%Z)
    /\ Forall2 (fun d r => row_of now st d = Ok r) ds new.
Proof.
  induction ds as [|day ds IH]; intros Hfields total rows.
  - exists []. cbn. rewrite app_nil_r, Z.add_0_r. auto.
  - destruct (Hfields day (or_introl eq_refl)) as [Hi Ho].
    destruct (row_of_returns now st day Hi Ho) as (r & Hr).
    rewrite (page_loop_step _ _ _ _ _ _ r Hr).
    destruct (IH (fun d Hd => Hfields d (or_intror Hd))
                 (total + daily_duration r)%Z (rows ++ [r]))
      as (new & Hnew & Hall).
    exists (r :: new). rewrite Hnew. split.
    + rewrite <- app_assoc. cbn [app sum_durations map fold_right].
      f_equal. f_equal. unfold sum_durations. lia.
    + now constructor.
Qed.

Lemma in_key_inj (d d' : string) : in_key d = in_key d' -> d = d'.
Proof. unfold in_key. now intros [= ->]. Qed.

Lemma out_key_inj (d d' : string) : out_key d = out_key d' -> d = d'.
Proof. unfold out_key. now intros [= ->]. Qed.

Lemma in_key_not_out_key (d d' : string) : in_key d <> out_key d'.
Proof. unfold in_key, out_key. discriminate. Qed.

(** Clearing a day empties its two fields and keeps every other entry. *)
Lemma clear_day_lookup (day : string) (st : gmap string string) :
  clear_day_callback day st !! in_key day = Some ""
  /\ clear_day_callback day st !! out_key day = Some ""
  /\ forall key, key <> in_key day -> key <> out_key day ->
       clear_day_callback day st !! key = st !! key.
Proof.
  unfold clear_day_callback. repeat split.
  - rewrite lookup_insert_ne by (intros H; symmetry in H;
                                 exact (in_key_not_out_key _ _ H)).
    apply lookup_insert_eq.
  - apply lookup_insert_eq.
  - intros key H1 H2. now rewrite !lookup_insert_ne by congruence.
Qed.

Lemma clear_day_other (day d : string) (st : gmap string string) :
  d <> day ->
  clear_day_callback day st !! in_key d = st !! in_key d
  /\ clear_day_callback day st !! out_key d = st !! out_key d.
Proof.
  intros Hne. destruct (clear_day_lookup day st) as (_ & _ & Hother).
  split; apply Hother.
  - intros H%in_key_inj. contradiction.
  - apply in_key_not_out_key.
  - intros H. symmetry in H. exact (in_key_not_out_key _ _ H).
  - intros H%out_key_inj. contradiction.
Qed.

Lemma row_of_clear_other (now : time) (day d : string) (st : gmap string string) :
  d <> day -> row_of now (clear_day_callback day st) d = row_of now st d.
Proof.
  intros Hne. destruct (clear_day_other day d st Hne) as [Hi Ho].
  unfold row_of, getitem. now rewrite Hi, Ho.
Qed.

Lemma row_of_clear_same (now : time) (day : string) (st : gmap string string) :
  exists r, row_of now (clear_day_callback day st) day = Ok r
            /\ daily_duration r = 0%Z.
Proof.
  destruct (clear_day_lookup day st) as (Hi & Ho & _).
  unfold row_of, getitem. rewrite Hi, Ho. cbn [bind].
  eexists. split; reflexivity.
Qed.

Lemma sum_after_clear (now : time) (day : string) (st : gmap string string)
      (r_day : row) :
  row_of now st day = Ok r_day ->
  forall ds rows rows',
    List.NoDup ds ->
    Forall2 (fun d r => row_of now st d = Ok r) ds rows ->
    Forall2 (fun d r => row_of now (clear_day_callback day st) d = Ok r)
            ds rows' ->
    (In day ds -> sum_durations rows'
                  = (sum_durations rows - daily_duration r_day)%Z)
    /\ (~ In day ds -> sum_durations rows' = sum_durations rows).
Proof.
  intros Hday ds. induction ds as [|d ds IH]; intros rows rows' Hnd H1 H2.
  - inversion H1; inversion H2; subst. cbn. tauto.
  - inversion H1 as [| ? r ? rs Hr Hrs]; subst.
    inversion H2 as [| ? r' ? rs' Hr' Hrs']; subst.
    inversion Hnd as [| ? ? Hnotin Hnd']; subst.
    destruct (IH rs rs' Hnd' Hrs Hrs') as [IHin IHout].
    unfold sum_durations in *. cbn [map fold_right].
    destruct (String.eqb_spec d day) as [-> | Hne].
    + destruct (row_of_clear_same now day st) as (r0 & Hr0 & Hz).
      assert (r' = r0) as -> by congruence.
      assert (r = r_day) as -> by congruence.
      rewrite Hz, (IHout Hnotin). split; intros; [lia | ].
      exfalso. apply H. now left.
    + rewrite (row_of_clear_other now day d st Hne) in Hr'.
      assert (r' = r) as -> by congruence.
      split.
      * intros [Heq | Hin]; [contradiction |]. rewrite (IHin Hin). lia.
      * intros Hnotin'. rewrite IHout; [reflexivity |].
        intros Hin. apply Hnotin'. now right.
Qed.

Lemma NoDup_days : List.NoDup days.
Proof.
  unfold days. repeat constructor; cbn; intuition discriminate.
Qed.

(** Every callback keeps the fields of the seven days in the state. *)
Lemma insert_has_fields (key v : string) (st : gmap string string) :
  has_day_fields st -> has_day_fields (<[key := v]> st).
Proof.
  intros Hst d Hd. destruct (Hst d Hd) as [Hi Ho].
  split; apply lookup_insert_is_Some'; auto.
Qed.

Lemma clear_day_has_fields (day : string) (st : gmap string string) :
  has_day_fields st -> has_day_fields (clear_day_callback day st).
Proof.
  intros Hst. unfold clear_day_callback. now do 2 apply insert_has_fields.
Qed.

Lemma end_now_has_fields (now : time) (day : string) (st : gmap string string) :
  has_day_fields st -> has_day_fields (end_now_callback now day st).
Proof. apply insert_has_fields. Qed.

Lemma format_input_has_fields (day field : string) (st st' : gmap string string) :
  has_day_fields st -> format_input_callback day field st = Ok st' ->
  has_day_fields st'.
Proof.
  intros Hst. unfold format_input_callback.
  destruct (st !! (field +:+ "_" +:+ day)) as [raw |]; [| now intros [= <-]].
  destruct (format_time_input raw) as [v |]; [| discriminate].
  intros [= <-]. now apply insert_has_fields.
Qed.

Lemma reset_all_has_fields (st : gmap string string) :
  has_day_fields st -> has_day_fields (reset_all_callback st).
Proof.
  unfold reset_all_callback. generalize days. intros ds. revert st.
  induction ds as [|d ds IH]; intros st Hst; cbn [fold_left]; [exact Hst |].
  apply IH. now apply clear_day_has_fields.
Qed.

Lemma initial_state_has_fields : has_day_fields initial_state.
Proof.
  intros d Hd. unfold days in Hd. cbn in Hd.
  repeat (destruct Hd as [<- | Hd]; [split; eexists; vm_compute; reflexivity |]).
  contradiction.
Qed.

(** ** The normalizer *)

Lemma str_forall_filter (p : ascii -> bool) (s : string) :
  str_forall p (str_filter p s) = true.
Proof.
  induction s as [|c s IH]; cbn [str_filter]; [reflexivity |].
  destruct (p c) eqn:Hc; [| exact IH]. cbn [str_forall]. now rewrite Hc.
Qed.

Lemma str_forall_take (p : ascii -> bool) (n : nat) : forall s,
  str_forall p s = true -> str_forall p (str_take n s) = true.
Proof.
  induction n as [|n IH]; intros [|c s]; cbn [str_take str_forall]; trivial.
  intros [-> H]%andb_true_iff. cbn [andb]. now apply IH.
Qed.

Lemma str_take_length (n : nat) : forall s,
  (String.length (str_take n s) <= n)%nat.
Proof.
  induction n as [|n IH]; intros [|c s]; cbn [str_take String.length];
    try lia.
  specialize (IH s). lia.
Qed.

Lemma str_filter_decimal (s : string) :
  digits_are_decimal s = true ->
  str_filter isdigit s = str_filter isdecimal s.
Proof.
  unfold digits_are_decimal.
  induction s as [|c s IH]; cbn [str_filter str_forall]; [reflexivity |].
  intros [Hc Hs]%andb_true_iff. rewrite (IH Hs).
  unfold isdigit in *. destruct (isdecimal c); cbn [orb]; [reflexivity |].
  cbn [orb implb] in Hc. unfold isdigit in Hc.
  destruct (_ || _); [discriminate | reflexivity].
Qed.

Lemma isdecimal_isdigit (c : ascii) : isdecimal c = true -> isdigit c = true.
Proof. unfold isdigit. now intros ->. Qed.

Lemma int_two_inv (a b : ascii) (n : nat) :
  int (String a (String b "")) = Ok n ->
  isdecimal a = true /\ isdecimal b = true
  /\ n = Spec.two_digit_number a b.
Proof.
  unfold int, int_go, Spec.two_digit_number.
  destruct (isdecimal a); [| discriminate].
  destruct (isdecimal b); [| discriminate].
  rewrite Nat.mul_0_r, Nat.add_0_l. intros [= <-]. auto.
Qed.

(** The digits the normalizer keeps. *)
Lemma kept_digits (p : ascii -> bool) (s : string) :
  let digits := str_take 4 (str_filter p s) in
  str_forall p digits = true /\ (String.length digits <= 4)%nat.
Proof.
  cbv zeta. split.
  - apply str_forall_take, str_forall_filter.
  - apply str_take_length.
Qed.

(** X7. On texts without superscript digits the normalizer does not fail
    and runs the reference algorithm. *)
Lemma format_time_input_reference (raw : string) :
  digits_are_decimal raw = true ->
  format_time_input raw = Ok (Spec.normalize raw).
Proof.
  intros Hraw. unfold format_time_input, Spec.normalize.
  rewrite (str_filter_decimal raw Hraw).
  destruct raw as [|c0 raw0]; [reflexivity |]. cbn [truthy negb].
  destruct (kept_digits isdecimal (String c0 raw0)) as [Hall Hlen].
  cbv zeta in Hall, Hlen.
  destruct (str_take 4 (str_filter isdecimal (String c0 raw0)))
    as [|a [|b [|c [|d [|e rest]]]]]; cbn [String.length] in Hlen; try lia;
    try reflexivity.
  - split_forall Hall.
    cbn [String.length Nat.eqb str_take]. rewrite (int_two a b) by trivial.
    cbn [bind]. fold (Spec.two_digit_number a b).
    destruct (23 <? Spec.two_digit_number a b)%nat; reflexivity.
Qed.

(** Where the normalizer returns, it returns a text it leaves as it is. *)
Lemma format_time_input_idempotent (raw out : string) :
  format_time_input raw = Ok out -> format_time_input out = Ok out.
Proof.
  unfold format_time_input at 1.
  destruct raw as [|c0 raw0]; [now intros [= <-] |]. cbn [truthy negb].
  destruct (kept_digits isdigit (String c0 raw0)) as [Hall Hlen].
  cbv zeta in Hall, Hlen.
  destruct (str_take 4 (str_filter isdigit (String c0 raw0)))
    as [|a [|b [|c [|d [|e rest]]]]]; cbn [String.length] in Hlen; try lia;
    cbn [String.length Nat.eqb str_take str_drop str_index bind].
  - now intros [= <-].
  - intros [= <-]. split_forall Hall.
    unfold format_time_input. cbn [truthy negb str_filter]. rewrite Hc.
    reflexivity.
  - intros [= <-]. split_forall Hall.
    unfold format_time_input. cbn [truthy negb str_filter]. rewrite Hc, Hc0.
    reflexivity.
  - split_forall Hall.
    destruct (int (String a (String b ""))) as [n |] eqn:Hint;
      [| discriminate].
    destruct (int_two_inv a b n Hint) as (Ha & Hb & ->).
    cbn [bind]. destruct (23 <? Spec.two_digit_number a b)%nat eqn:Hgt.
    + cbn [bind String.append]. intros [= <-].
      unfold format_time_input. cbn [truthy negb str_filter].
      change (isdigit "0") with true. change (isdigit ":") with false.
      rewrite Hc, Hc0, Hc1. reflexivity.
    + cbn [String.append]. intros [= <-].
      unfold format_time_input. cbn [truthy negb str_filter].
      change (isdigit ":") with false.
      rewrite Hc, Hc0, Hc1.
      cbn [String.length Nat.eqb str_take str_drop]. rewrite Hint.
      cbn [bind]. rewrite Hgt. reflexivity.
  - cbn [String.append]. intros [= <-]. split_forall Hall.
    unfold format_time_input. cbn [truthy negb str_filter].
    change (isdigit ":") with false.
    rewrite Hc, Hc0, Hc1, Hc2. reflexivity.
Qed.

(** C3. On the text ['1', U+00B2, '3'] the normalizer keeps the superscript
    as a digit and fails with [ValueError] where it reads the hour, while
    the reference algorithm returns ["13"]. *)
Theorem format_time_input_raises_on_superscript :
  isdigit superscript_two = true
  /\ isdecimal superscript_two = false
  /\ str_take 4 (str_filter isdigit one_squared_three) = one_squared_three
  /\ format_time_input one_squared_three = Raise ValueError
  /\ Spec.normalize one_squared_three = "13".
Proof. repeat split. Qed.

(** C10. On the text ['1', U+00B2, '3'] the normalizer fails, and so does
    normalizing twice: there is no result to compare. *)
Theorem format_time_input_twice_raises :
  bind (format_time_input one_squared_three) format_time_input
  = Raise ValueError
  /\ forall out, format_time_input one_squared_three <> Ok out.
Proof. split; [reflexivity | discriminate]. Qed.

(** * Further properties of the program *)

(** ** The texts the calculator reads *)

Lemma short_digit (a : ascii) :
  isdecimal a = true -> str_of_int (Z.of_nat (digit_value a)) = String a "".
Proof.
  intros Ha.
  assert (Hall : forallb (fun n => String.eqb (str_of_int (Z.of_nat n))
                                     (String (ascii_of_nat (48 + n)) ""))
                         (seq 0 10) = true) by (vm_compute; reflexivity).
  rewrite forallb_forall in Hall.
  pose proof (digit_value_lt a Ha) as Hlt.
  specialize (Hall (digit_value a) ltac:(apply in_seq; lia)).
  apply String.eqb_eq in Hall. now rewrite <- (isdecimal_chr a) in Hall.
Qed.

Lemma in_time_texts (s : string) (t : time) :
  In s (time_texts t) <->
  exists hs ms, In hs (number_texts (hour t)) /\ In ms (number_texts (minute t))
                /\ s = hs +:+ ":" +:+ ms.
Proof.
  unfold time_texts. rewrite in_flat_map. split.
  - intros (hs & Hhs & (ms & <- & Hms)%in_map_iff). eauto.
  - intros (hs & ms & Hhs & Hms & ->). exists hs. split; [exact Hhs |].
    apply in_map_iff. eauto.
Qed.

Lemma strptime_time_texts (t : time) (s : string) :
  time_ok t -> In s (time_texts t) -> strptime s = Ok t.
Proof.
  intros Hok Hin.
  pose proof (for_all_clock_times_spec
    (fun t => forallb (fun s => res_time_eqb (strptime s) t) (time_texts t))
    t ltac:(vm_compute; reflexivity) Hok) as Hall.
  cbv beta in Hall. rewrite forallb_forall in Hall. specialize (Hall s Hin).
  unfold res_time_eqb in Hall.
  destruct (strptime s) as [[h' m'] |]; [| discriminate].
  destruct t as [h m]. cbn [hour minute] in Hall.
  apply andb_true_iff in Hall as [H1%Nat.eqb_eq H2%Nat.eqb_eq]. now subst.
Qed.

Lemma hour_word_text (w : string) (n : nat) :
  lang directive_H w -> int w = Ok n -> In w (number_texts n).
Proof.
  intros [(a & b & -> & Ha & Hb & _) | (a & -> & Ha)]%lang_H_inv Hint.
  - rewrite int_two in Hint by trivial.
    assert (n = 10 * digit_value a + digit_value b)%nat as -> by congruence.
    left. now apply pad2_two_digits.
  - rewrite int_one in Hint by trivial.
    assert (n = digit_value a) as -> by congruence.
    right. unfold number_texts.
    pose proof (digit_value_lt a Ha) as Hlt.
    apply Nat.ltb_lt in Hlt. rewrite Hlt. left. now apply short_digit.
Qed.

Lemma minute_word_text (w : string) (n : nat) :
  lang directive_M w -> int w = Ok n -> In w (number_texts n).
Proof.
  intros [(a & b & -> & Ha & Hb & _) | (a & -> & Ha)]%lang_M_inv Hint.
  - rewrite int_two in Hint by trivial.
    assert (n = 10 * digit_value a + digit_value b)%nat as -> by congruence.
    left. now apply pad2_two_digits.
  - rewrite int_one in Hint by trivial.
    assert (n = digit_value a) as -> by congruence.
    right. unfold number_texts.
    pose proof (digit_value_lt a Ha) as Hlt.
    apply Nat.ltb_lt in Hlt. rewrite Hlt. left. now apply short_digit.
Qed.

Lemma strptime_Ok_texts (s : string) (t : time) :
  strptime s = Ok t -> time_ok t /\ In s (time_texts t).
Proof.
  intros Hs. split; [eapply strptime_time_ok, Hs |].
  apply strptime_Ok_split in Hs as (wh & wm & -> & Hh & Hm & Ih & Im).
  apply in_time_texts. exists wh, wm.
  split; [now apply hour_word_text |]. split; [now apply minute_word_text |].
  reflexivity.
Qed.

(** The four ways a call of the calculator can go. *)
Lemma calculate_cases (a b : string) :
  (exists e, strptime a = Raise e /\ calculate_time_difference a b = Ok 0%Z)
  \/ (exists t_in, strptime a = Ok t_in /\ b = "24:00"
        /\ calculate_time_difference a b
           = Ok (Spec.minutes (24 * 60 - Spec.clock_minutes t_in)))
  \/ (exists t_in t_out, strptime a = Ok t_in /\ b <> "24:00"
        /\ strptime b = Ok t_out
        /\ calculate_time_difference a b
           = Ok (Spec.minutes (Spec.elapsed_minutes t_in t_out)))
  \/ (exists t_in e, strptime a = Ok t_in /\ b <> "24:00"
        /\ strptime b = Raise e /\ calculate_time_difference a b = Ok 0%Z).
Proof.
  destruct (strptime a) as [t_in | e] eqn:Ha.
  - destruct (String.eqb_spec b "24:00") as [-> | Hne].
    + right; left. exists t_in. auto using calculate_sentinel_out.
    + destruct (strptime b) as [t_out | e] eqn:Hb.
      * right; right; left. exists t_in, t_out. auto using calculate_parsed.
      * right; right; right. exists t_in, e. eauto using calculate_out_fails.
  - left. exists e. eauto using calculate_in_fails.
Qed.

Lemma elapsed_minutes_lt_day (t_in t_out : time) :
  time_ok t_in -> time_ok t_out ->
  (Spec.elapsed_minutes t_in t_out < 24 * 60)%Z.
Proof.
  intros H1%clock_minutes_range H2%clock_minutes_range.
  unfold Spec.elapsed_minutes.
  destruct (Z.leb_spec (Spec.clock_minutes t_in) (Spec.clock_minutes t_out));
    lia.
Qed.

Lemma clock_minutes_zero (t : time) :
  Spec.clock_minutes t = 0%Z -> t = time_min.
Proof.
  destruct t as [h m]. unfold Spec.clock_minutes, time_min. cbn [hour minute].
  intros H. f_equal; lia.
Qed.

(** The calculator never returns a negative duration, a duration with
    seconds, or more than a day. *)
Lemma calculate_bounds (a b : string) (d : timedelta) :
  calculate_time_difference a b = Ok d ->
  (0 <= d <= 86400)%Z /\ (d mod 60 = 0)%Z.
Proof.
  intros Hd.
  destruct (calculate_cases a b)
    as [(e & _ & H) | [(t_in & Ha & _ & H)
       | [(t_in & t_out & Ha & _ & Hb & H) | (t_in & e & _ & _ & _ & H)]]];
    rewrite H in Hd; injection Hd as <-; unfold Spec.minutes.
  - split; [lia | reflexivity].
  - pose proof (clock_minutes_range t_in (strptime_time_ok _ _ Ha)).
    split; [lia |]. rewrite Z.mul_comm. apply Z.mod_mul. lia.
  - pose proof (elapsed_minutes_nonneg t_in t_out (strptime_time_ok _ _ Ha)
                  (strptime_time_ok _ _ Hb)).
    pose proof (elapsed_minutes_lt_day t_in t_out (strptime_time_ok _ _ Ha)
                  (strptime_time_ok _ _ Hb)).
    split; [lia |]. rewrite Z.mul_comm. apply Z.mod_mul. lia.
  - split; [lia | reflexivity].
Qed.

(** X1. The calculator reads an hour or a minute written with one digit as
    it reads the two-digit form: on any two texts that [strptime] reads as
    the times [t_in] and [t_out] it returns the wrapped difference of their
    clock minutes. *)
Theorem calculate_reads_short_forms (t_in t_out : time) (a b : string) :
  time_ok t_in -> time_ok t_out ->
  In a (time_texts t_in) -> In b (time_texts t_out) ->
  calculate_time_difference a b
  = Ok (Spec.minutes (Spec.elapsed_minutes t_in t_out)).
Proof.
  intros Hin Hout Ha Hb.
  apply calculate_parsed; now apply strptime_time_texts.
Qed.

Lemma calculate_reads_short_forms_witness :
  calculate_time_difference "9:5" "10:00" = Ok (Spec.minutes 55).
Proof.
  apply (calculate_reads_short_forms (mk_time 9 5) (mk_time 10 0)).
  - split; cbn; lia.
  - split; cbn; lia.
  - vm_compute. auto.
  - vm_compute. auto.
Defined.

(** X2. A duration other than zero comes only from an in-text that reads
    as a time of the clock, in its two-digit or one-digit forms, and an
    out-text that is the sentinel or reads as a time of the clock; the
    duration is then the one of those times. *)
Theorem calculate_nonzero_only_on_times (a b : string) (d : timedelta) :
  calculate_time_difference a b = Ok d -> d <> 0%Z ->
  exists t_in,
    time_ok t_in /\ In a (time_texts t_in)
    /\ ((b = "24:00"
         /\ d = Spec.minutes (24 * 60 - Spec.clock_minutes t_in))
        \/ (exists t_out,
              time_ok t_out /\ In b (time_texts t_out)
              /\ d = Spec.minutes (Spec.elapsed_minutes t_in t_out))).
Proof.
  intros Hd Hnz.
  destruct (calculate_cases a b)
    as [(e & _ & H) | [(t_in & Ha & Hb & H)
       | [(t_in & t_out & Ha & _ & Hb & H) | (t_in & e & _ & _ & _ & H)]]];
    rewrite H in Hd; injection Hd as <-; try contradiction.
  - destruct (strptime_Ok_texts _ _ Ha) as [Hok Hin].
    exists t_in. auto.
  - destruct (strptime_Ok_texts _ _ Ha) as [Hok Hin].
    destruct (strptime_Ok_texts _ _ Hb) as [Hok' Hin'].
    exists t_in. split; [exact Hok |]. split; [exact Hin |].
    right. exists t_out. auto.
Qed.

Lemma calculate_nonzero_only_on_times_witness :
  exists t_in,
    time_ok t_in /\ In "22:00" (time_texts t_in)
    /\ (("6:00" = "24:00"
         /\ 28800%Z = Spec.minutes (24 * 60 - Spec.clock_minutes t_in))
        \/ (exists t_out,
              time_ok t_out /\ In "6:00" (time_texts t_out)
              /\ 28800%Z = Spec.minutes (Spec.elapsed_minutes t_in t_out))).
Proof.
  apply (calculate_nonzero_only_on_times "22:00" "6:00" 28800%Z).
  - reflexivity.
  - discriminate.
Defined.

(** X3. On every pair of texts the calculator returns a whole number of
    minutes between zero and 24 hours; it returns the full 24 hours only
    from an in-text that reads as midnight to the sentinel ["24:00"]. *)
Theorem calculate_at_most_a_day (a b : string) :
  exists d,
    calculate_time_difference a b = Ok d
    /\ (0 <= d <= 86400)%Z
    /\ (d mod 60 = 0)%Z
    /\ (d = 86400%Z <-> strptime a = Ok time_min /\ b = "24:00").
Proof.
  destruct (calculate_returns a b) as (d & Hd & _).
  destruct (calculate_bounds a b d Hd) as [Hb Hm].
  exists d. split; [exact Hd |]. split; [exact Hb |]. split; [exact Hm |].
  split.
  - intros ->.
    destruct (calculate_cases a b)
      as [(e & _ & H) | [(t_in & Ha & Hs & H)
         | [(t_in & t_out & Ha & _ & Hb' & H) | (t_in & e & _ & _ & _ & H)]]];
      rewrite H in Hd; try discriminate Hd.
    + injection Hd as Hd. unfold Spec.minutes in Hd.
      rewrite (clock_minutes_zero t_in) in Ha by lia. auto.
    + injection Hd as Hd. unfold Spec.minutes in Hd.
      pose proof (elapsed_minutes_lt_day t_in t_out (strptime_time_ok _ _ Ha)
                    (strptime_time_ok _ _ Hb')). lia.
  - intros [Ha ->].
    rewrite (calculate_sentinel_out a time_min Ha) in Hd.
    now injection Hd as <-.
Qed.

(** X4. For two valid texts of different times, the time from the first
    to the second and the time from the second to the first add up to 24
    hours. *)
Theorem calculate_there_and_back (t1 t2 : time) :
  time_ok t1 -> time_ok t2 -> t1 <> t2 ->
  exists d12 d21,
    calculate_time_difference (strftime t1) (strftime t2) = Ok d12
    /\ calculate_time_difference (strftime t2) (strftime t1) = Ok d21
    /\ (d12 + d21 = 86400)%Z.
Proof.
  intros H1 H2 Hne.
  exists (Spec.minutes (Spec.elapsed_minutes t1 t2)),
         (Spec.minutes (Spec.elapsed_minutes t2 t1)).
  split; [apply calculate_parsed; now apply strptime_strftime |].
  split; [apply calculate_parsed; now apply strptime_strftime |].
  assert (Spec.clock_minutes t1 <> Spec.clock_minutes t2).
  { intros Heq. apply Hne. destruct t1 as [h1 m1], t2 as [h2 m2].
    destruct H1 as [? ?], H2 as [? ?]. unfold Spec.clock_minutes in Heq.
    cbn [hour minute] in *. f_equal; lia. }
  unfold Spec.minutes, Spec.elapsed_minutes.
  destruct (Z.leb_spec (Spec.clock_minutes t1) (Spec.clock_minutes t2));
    destruct (Z.leb_spec (Spec.clock_minutes t2) (Spec.clock_minutes t1));
    lia.
Qed.

Lemma calculate_there_and_back_witness :
  exists d12 d21,
    calculate_time_difference "09:00" "17:30" = Ok d12
    /\ calculate_time_difference "17:30" "09:00" = Ok d21
    /\ (d12 + d21 = 86400)%Z.
Proof.
  apply (calculate_there_and_back (mk_time 9 0) (mk_time 17 30)).
  - split; cbn; lia.
  - split; cbn; lia.
  - discriminate.
Defined.

(** ** More on the normalizer *)

Lemma str_filter_idem (p : ascii -> bool) (s : string) :
  str_filter p (str_filter p s) = str_filter p s.
Proof.
  induction s as [|c s IH]; cbn [str_filter]; [reflexivity |].
  destruct (p c) eqn:Hc; [| exact IH]. cbn [str_filter]. now rewrite Hc, IH.
Qed.

Lemma str_filter_app (p : ascii -> bool) (a b : string) :
  str_filter p (a +:+ b) = str_filter p a +:+ str_filter p b.
Proof.
  induction a as [|c a IH]; cbn [str_filter String.append]; [reflexivity |].
  destruct (p c); cbn [String.append]; now rewrite IH.
Qed.

(** X5. The normalizer reads the digit characters of its argument and
    nothing else: it treats a text as it treats the text with every other
    character taken out. *)
Theorem format_time_input_reads_digits_only (raw : string) :
  format_time_input raw = format_time_input (str_filter isdigit raw).
Proof.
  unfold format_time_input. rewrite str_filter_idem.
  destruct raw as [|c raw]; [reflexivity |]. cbn [truthy negb].
  destruct (str_filter isdigit (String c raw)) as [|c' digits] eqn:Hf;
    reflexivity.
Qed.

(** The text the normalizer returns has one of five shapes. *)
Lemma format_time_input_shape (raw out : string) :
  format_time_input raw = Ok out -> normalized_shape out.
Proof.
  unfold format_time_input, normalized_shape.
  destruct raw as [|c0 raw0]; [intros [= <-]; now left |]. cbn [truthy negb].
  destruct (kept_digits isdigit (String c0 raw0)) as [Hall Hlen].
  cbv zeta in Hall, Hlen.
  destruct (str_take 4 (str_filter isdigit (String c0 raw0)))
    as [|a [|b [|c [|d [|e rest]]]]]; cbn [String.length] in Hlen; try lia;
    cbn [String.length Nat.eqb str_take str_drop str_index bind].
  - intros [= <-]. now left.
  - intros [= <-]. split_forall Hall. right; left. eauto.
  - intros [= <-]. split_forall Hall. right; right; left. eauto 6.
  - split_forall Hall.
    destruct (int (String a (String b ""))) as [n |] eqn:Hint;
      [| discriminate].
    destruct (int_two_inv a b n Hint) as (Ha & Hb & ->).
    cbn [bind]. destruct (Nat.ltb_spec 23 (Spec.two_digit_number a b)).
    + cbn [bind String.append]. intros [= <-]. do 4 right.
      exists "0"%char, a, b, c. auto 6.
    + cbn [String.append]. intros [= <-]. do 3 right; left.
      exists a, b, c. repeat split; trivial; lia.
  - cbn [String.append]. intros [= <-]. split_forall Hall. do 4 right.
    exists a, b, c, d. auto 6.
Qed.

(** X6. A text the normalizer returns has at most five characters and the
    normalizer leaves it as it is; once it has five characters, whatever is
    typed after it is dropped. *)
Theorem format_time_input_output (raw out : string) :
  format_time_input raw = Ok out ->
  (String.length out <= 5)%nat
  /\ format_time_input out = Ok out
  /\ (String.length out = 5%nat ->
      forall more, format_time_input (out +:+ more) = Ok out).
Proof.
  intros Hout. split; [| split].
  - destruct (format_time_input_shape raw out Hout)
      as [-> | [(a & _ & ->) | [(a & b & _ & _ & ->)
         | [(a & b & c & _ & _ & _ & _ & ->)
           | (a & b & c & d & _ & _ & _ & _ & ->)]]]]; cbn; lia.
  - eapply format_time_input_idempotent, Hout.
  - intros Hlen more.
    destruct (format_time_input_shape raw out Hout)
      as [-> | [(a & _ & ->) | [(a & b & _ & _ & ->)
         | [(a & b & c & _ & _ & _ & _ & ->)
           | (a & b & c & d & Ha & Hb & Hc & Hd & ->)]]]];
      try discriminate Hlen.
    unfold format_time_input. cbn [String.append truthy negb str_filter].
    change (isdigit ":") with false. rewrite Ha, Hb, Hc, Hd.
    cbn [str_take String.length Nat.eqb str_drop String.append]. reflexivity.
Qed.

Lemma format_time_input_output_witness :
  (String.length "05:45" <= 5)%nat
  /\ format_time_input "05:45" = Ok "05:45"
  /\ (String.length "05:45" = 5%nat ->
      forall more, format_time_input ("05:45" +:+ more) = Ok "05:45").
Proof.
  apply (format_time_input_output "545" "05:45"). reflexivity.
Defined.

(** X8. The normalizer leaves a valid text ['HH:MM'] as it is, and turns
    the four digits of a valid time, typed without the colon, into that
    text, which [strptime] then reads as the time. *)
Theorem format_time_input_of_clock_time (t : time) :
  time_ok t ->
  format_time_input (strftime t) = Ok (strftime t)
  /\ format_time_input (pad2 (hour t) +:+ pad2 (minute t)) = Ok (strftime t)
  /\ bind (format_time_input (pad2 (hour t) +:+ pad2 (minute t))) strptime
     = Ok t.
Proof.
  intros Hok.
  pose proof (for_all_clock_times_spec
    (fun t => res_string_eqb (format_time_input (strftime t)) (strftime t)
              && res_string_eqb
                   (format_time_input (pad2 (hour t) +:+ pad2 (minute t)))
                   (strftime t))
    t ltac:(vm_compute; reflexivity) Hok) as Hall.
  cbv beta in Hall. apply andb_true_iff in Hall as [H1 H2].
  unfold res_string_eqb in H1, H2.
  destruct (format_time_input (strftime t)) as [s1 |]; [| discriminate].
  destruct (format_time_input (pad2 (hour t) +:+ pad2 (minute t))) as [s2 |];
    [| discriminate].
  apply String.eqb_eq in H1, H2. subst s1 s2. cbn [bind].
  rewrite strptime_strftime by exact Hok. auto.
Qed.

Lemma format_time_input_of_clock_time_witness :
  format_time_input "09:30" = Ok "09:30"
  /\ format_time_input "0930" = Ok "09:30"
  /\ bind (format_time_input "0930") strptime = Ok (mk_time 9 30).
Proof.
  apply (format_time_input_of_clock_time (mk_time 9 30)). split; cbn; lia.
Defined.

Lemma typed_digits_clock_text (a b c d : ascii) :
  isdecimal a = true -> isdecimal b = true ->
  isdecimal c = true -> isdecimal d = true ->
  Spec.is_clock_text (String a (String b (String ":" (String c (String d "")))))
  <-> (Spec.two_digit_number a b < 24)%nat
      /\ (Spec.two_digit_number c d < 60)%nat.
Proof.
  intros Ha Hb Hc Hd. rewrite is_clock_text_chars. split.
  - intros (a' & b' & c' & d' & [= -> -> -> ->] & _ & _ & _ & _ & H1 & H2).
    auto.
  - intros [H1 H2]. exists a, b, c, d. auto 10.
Qed.

(** X9. Four decimal digits typed into the in-field become the text
    ['d0d1:d2d3'], and the row of that text is in error exactly when the
    hour [d0 d1] is above 23 or the minute [d2 d3] is above 59. *)
Theorem typed_four_digits_flagged (now : time) (a b c d : ascii) :
  isdecimal a = true -> isdecimal b = true ->
  isdecimal c = true -> isdecimal d = true ->
  let typed := String a (String b (String c (String d ""))) in
  let text := String a (String b (String ":" (String c (String d "")))) in
  format_time_input typed = Ok text
  /\ exists r,
       day_row now text "" = Ok r
       /\ (error_in_row r = true
           <-> (23 < Spec.two_digit_number a b)%nat
               \/ (59 < Spec.two_digit_number c d)%nat).
Proof.
  intros Ha Hb Hc Hd typed text. split.
  - unfold format_time_input, typed. cbn [truthy negb str_filter].
    rewrite !isdecimal_isdigit by trivial. reflexivity.
  - destruct (day_row_spec now text "") as (r & Hr & Hiff & _).
    exists r. split; [exact Hr |]. rewrite Hiff.
    pose proof (typed_digits_clock_text a b c d Ha Hb Hc Hd) as Hct.
    fold text in Hct.
    unfold Spec.error_state, Spec.in_error, Spec.out_error. split.
    + intros [[_ [Hbad | Heq]] | [_ [Hlen _]]].
      * assert (~ ((Spec.two_digit_number a b < 24)%nat
                   /\ (Spec.two_digit_number c d < 60)%nat)) by tauto.
        lia.
      * assert (~ Spec.is_clock_text text)
          by (rewrite Heq; apply sentinel_not_clock_text).
        assert (~ ((Spec.two_digit_number a b < 24)%nat
                   /\ (Spec.two_digit_number c d < 60)%nat)) by tauto.
        lia.
      * discriminate Hlen.
    + intros Hor. left. split; [reflexivity |]. left.
      intros H%Hct. lia.
Qed.

Lemma typed_four_digits_flagged_witness :
  format_time_input "2530" = Ok "25:30"
  /\ exists r,
       day_row (mk_time 8 0) "25:30" "" = Ok r
       /\ (error_in_row r = true
           <-> (23 < Spec.two_digit_number "2" "5")%nat
               \/ (59 < Spec.two_digit_number "3" "0")%nat).
Proof.
  apply (typed_four_digits_flagged (mk_time 8 0) "2" "5" "3" "0");
    reflexivity.
Defined.

(** ** More on the rows *)

Lemma day_row_blank (now : time) : day_row now "" "" = Ok blank_row.
Proof. reflexivity. Qed.

(** A row reads the clock only for a valid in-text with an empty out-text. *)
Lemma day_row_clock_independent (now1 now2 : time) (in_time out_time : string) :
  out_time <> "" \/ ~ Spec.is_clock_text in_time ->
  day_row now1 in_time out_time = day_row now2 in_time out_time.
Proof.
  intros Hcond. unfold day_row.
  destruct out_time as [|c out_time].
  - destruct Hcond as [Hne | Hbad]; [contradiction |].
    destruct (Nat.eqb_spec (String.length in_time) 5) as [Hlen | Hlen].
    + destruct (validate_in_spec in_time) as (e & -> & He).
      assert (e = true) as ->.
      { apply He. split; [exact Hlen | now left]. }
      cbn [bind]. rewrite validate_out_after_error. reflexivity.
    + destruct (validate_in in_time) as [e1 |]; [| reflexivity]. cbn [bind].
      destruct (validate_out "" e1) as [e |]; [| reflexivity]. cbn [bind].
      now rewrite !andb_false_r.
  - destruct (validate_in in_time) as [e1 |]; [| reflexivity]. cbn [bind].
    destruct (validate_out (String c out_time) e1) as [e |]; [| reflexivity].
    cbn [bind truthy negb]. now rewrite !andb_false_r.
Qed.

Lemma day_row_duration_bounds (now : time) (in_time out_time : string) (r : row) :
  day_row now in_time out_time = Ok r ->
  (0 <= daily_duration r <= 86400)%Z /\ (daily_duration r mod 60 = 0)%Z.
Proof.
  intros Hr.
  destruct (day_row_spec now in_time out_time)
    as (r' & Hr' & _ & _ & Herr & _ & Hpair & Hsofar & Hpartial).
  assert (r' = r) as -> by congruence.
  assert (Hzero : daily_duration r = 0%Z ->
                  (0 <= daily_duration r <= 86400)%Z
                  /\ (daily_duration r mod 60 = 0)%Z)
    by (intros ->; split; [lia | reflexivity]).
  destruct (error_in_row r) eqn:He; [apply Hzero, Herr; reflexivity |].
  destruct (Nat.eq_dec (String.length in_time) 5) as [Hi | Hi];
    [| apply Hzero, Hpartial; now left].
  destruct (Nat.eq_dec (String.length out_time) 5) as [Ho | Ho].
  - destruct (Hpair eq_refl Hi Ho) as [Hd _]. eapply calculate_bounds, Hd.
  - destruct (String.eqb_spec out_time "") as [-> | Hne].
    + destruct (Hsofar eq_refl Hi eq_refl) as [Hd _].
      eapply calculate_bounds, Hd.
    + apply Hzero, Hpartial. now right.
Qed.

(** The row of a valid in-text and a complete out-text that is not in
    error. *)
Lemma day_row_with_out_text (now t_in : time) (out_text : string)
      (d : timedelta) :
  time_ok t_in ->
  String.length out_text = 5%nat ->
  ~ Spec.out_error out_text ->
  calculate_time_difference (strftime t_in) out_text = Ok d ->
  day_row now (strftime t_in) out_text
  = Ok (mk_row false false d "" (duration_cell d "")).
Proof.
  intros Hin Hlen Hout_ok Hd.
  destruct (day_row_spec now (strftime t_in) out_text)
    as (r & Hr & Hiff & Hbtn & _ & Hcell & Hpair & _).
  assert (He : error_in_row r = false).
  { destruct (error_in_row r); [| reflexivity]. exfalso.
    destruct (proj1 Hiff eq_refl) as [[_ [Hbad | Heq]] | [_ Ho]].
    - apply Hbad. exists t_in. auto.
    - apply sentinel_not_clock_text. rewrite <- Heq. exists t_in. auto.
    - contradiction. }
  destruct (Hpair He (strftime_length t_in Hin) Hlen) as [Hd' Hs].
  rewrite Hr. destruct r as [e btn dur suf cl]. cbn in *. subst e suf.
  rewrite (Hcell eq_refl). rewrite (truthy_length5 out_text Hlen) in Hbtn.
  rewrite andb_false_r in Hbtn. subst btn.
  assert (dur = d) as -> by congruence. reflexivity.
Qed.

(** The row of a valid in-text and an empty out-text. *)
Lemma day_row_so_far (now t_in : time) :
  time_ok now -> time_ok t_in ->
  day_row now (strftime t_in) ""
  = Ok (mk_row false true
          (Spec.minutes (Spec.elapsed_minutes t_in now)) " (so far)"
          (duration_cell (Spec.minutes (Spec.elapsed_minutes t_in now))
                         " (so far)")).
Proof.
  intros Hnow Hin.
  destruct (day_row_spec now (strftime t_in) "")
    as (r & Hr & Hiff & Hbtn & _ & Hcell & _ & Hsofar & _).
  assert (He : error_in_row r = false).
  { destruct (error_in_row r); [| reflexivity]. exfalso.
    destruct (proj1 Hiff eq_refl) as [[_ [Hbad | Heq]] | [_ [Ho _]]].
    - apply Hbad. exists t_in. auto.
    - apply sentinel_not_clock_text. rewrite <- Heq. exists t_in. auto.
    - discriminate Ho. }
  destruct (Hsofar He (strftime_length t_in Hin) eq_refl) as [Hd Hs].
  rewrite (calculate_parsed _ _ t_in now) in Hd
    by now apply strptime_strftime.
  rewrite Hr. destruct r as [e btn dur suf cl]. cbn in *. subst e suf.
  rewrite (Hcell eq_refl).
  rewrite (truthy_length5 _ (strftime_length t_in Hin)) in Hbtn. subst btn.
  assert (dur = Spec.minutes (Spec.elapsed_minutes t_in now)) as ->
    by congruence.
  reflexivity.
Qed.

(** X16. For a valid in-text and an out-text that is valid or the sentinel
    ["24:00"], the row has no error and no "End Now" button, shows the
    calculator's duration without a mark, and is the same at every reading
    of the clock. *)
Theorem day_row_complete_pair (now : time) (t_in t_out : time) :
  time_ok t_in -> time_ok t_out ->
  day_row now (strftime t_in) (strftime t_out)
  = Ok (mk_row false false
          (Spec.minutes (Spec.elapsed_minutes t_in t_out)) ""
          (duration_cell (Spec.minutes (Spec.elapsed_minutes t_in t_out)) ""))
  /\ day_row now (strftime t_in) "24:00"
     = Ok (mk_row false false
             (Spec.minutes (24 * 60 - Spec.clock_minutes t_in)) ""
             (duration_cell
                (Spec.minutes (24 * 60 - Spec.clock_minutes t_in)) "")).
Proof.
  intros Hin Hout. split.
  - apply day_row_with_out_text; trivial.
    + now apply strftime_length.
    + intros (_ & _ & Hbad). apply Hbad. exists t_out. auto.
    + apply calculate_parsed; now apply strptime_strftime.
  - apply day_row_with_out_text; trivial.
    + intros (_ & Hne & _). now apply Hne.
    + apply calculate_sentinel_out. now apply strptime_strftime.
Qed.

Lemma day_row_complete_pair_witness :
  day_row (mk_time 3 0) "09:00" "17:30"
  = Ok (mk_row false false 30600%Z ""
          (duration_cell 30600%Z ""))
  /\ day_row (mk_time 3 0) "09:00" "24:00"
     = Ok (mk_row false false 54000%Z "" (duration_cell 54000%Z "")).
Proof.
  apply (day_row_complete_pair (mk_time 3 0) (mk_time 9 0) (mk_time 17 30));
    split; cbn; lia.
Defined.

(** X17. While the in-text has not its five characters the day counts for
    nothing, whatever its out-text; its row is in error only through a
    complete out-text that is not a time, and with an out-text that is not
    complete either the row shows ["0h 0m"] without error. *)
Theorem day_row_partial_input (now : time) (in_text out_text : string) :
  String.length in_text <> 5%nat ->
  exists r,
    day_row now in_text out_text = Ok r
    /\ daily_duration r = 0%Z
    /\ duration_suffix r = ""
    /\ (error_in_row r = true <-> Spec.out_error out_text)
    /\ (String.length out_text <> 5%nat ->
        r = mk_row false (truthy in_text && negb (truthy out_text)) 0%Z ""
              (duration_cell 0%Z "")).
Proof.
  intros Hi.
  destruct (day_row_spec now in_text out_text)
    as (r & Hr & Hiff & Hbtn & _ & Hcell & _ & _ & Hpartial).
  destruct (Hpartial (or_introl Hi)) as [Hd Hs].
  assert (Hno : ~ Spec.in_error in_text) by (intros [Hlen _]; contradiction).
  assert (Hiff' : error_in_row r = true <-> Spec.out_error out_text).
  { rewrite Hiff. unfold Spec.error_state. tauto. }
  exists r. split; [exact Hr |]. split; [exact Hd |]. split; [exact Hs |].
  split; [exact Hiff' |]. intros Ho.
  assert (He : error_in_row r = false).
  { destruct (error_in_row r); [| reflexivity].
    destruct (proj1 Hiff' eq_refl) as [Hlen _]. contradiction. }
  destruct r as [e btn dur suf cl]. cbn in *. subst e dur suf btn.
  now rewrite (Hcell eq_refl).
Qed.

Lemma day_row_partial_input_witness :
  exists r,
    day_row (mk_time 8 0) "12:3" "17:00" = Ok r
    /\ daily_duration r = 0%Z
    /\ duration_suffix r = ""
    /\ (error_in_row r = true <-> Spec.out_error "17:00")
    /\ (String.length "17:00" <> 5%nat ->
        r = mk_row false (truthy "12:3" && negb (truthy "17:00")) 0%Z ""
              (duration_cell 0%Z "")).
Proof.
  apply (day_row_partial_input (mk_time 8 0) "12:3" "17:00"). discriminate.
Defined.

(** ** The callbacks *)

Lemma clear_day_lookup_b (day key : string) (st : gmap string string) :
  clear_day_callback day st !! key
  = if String.eqb key (in_key day) || String.eqb key (out_key day)
    then Some "" else st !! key.
Proof.
  destruct (clear_day_lookup day st) as (Hi & Ho & Hother).
  destruct (String.eqb_spec key (in_key day)) as [-> | H1]; [exact Hi |].
  destruct (String.eqb_spec key (out_key day)) as [-> | H2]; [exact Ho |].
  now apply Hother.
Qed.

Lemma reset_lookup (ds : list string) : forall (st : gmap string string) key,
  fold_left (fun st day => clear_day_callback day st) ds st !! key
  = if is_field_key ds key then Some "" else st !! key.
Proof.
  induction ds as [|d ds IH]; intros st key; cbn [fold_left is_field_key existsb];
    [reflexivity |].
  rewrite IH, clear_day_lookup_b. fold (is_field_key ds key).
  destruct (is_field_key ds key); [now rewrite orb_true_r |].
  now rewrite orb_false_r.
Qed.

Lemma is_field_key_in (ds : list string) (day : string) :
  In day ds ->
  is_field_key ds (in_key day) = true /\ is_field_key ds (out_key day) = true.
Proof.
  intros Hin. unfold is_field_key. split; apply existsb_exists; exists day;
    (split; [exact Hin |]); rewrite String.eqb_refl;
    [reflexivity | apply orb_true_r].
Qed.

Lemma page_loop_cons (now : time) (st : gmap string string) (day : string)
      (ds : list string) (total : timedelta) (rows : list row) :
  page_loop now st (day :: ds) total rows
  = bind (row_of now st day) (fun r =>
      page_loop now st ds (total + daily_duration r)%Z (rows ++ [r])).
Proof.
  unfold row_of. cbn [page_loop].
  destruct (getitem st (in_key day)) as [i |]; [| reflexivity].
  destruct (getitem st (out_key day)) as [o |]; reflexivity.
Qed.

Lemma page_loop_ext (now1 now2 : time) (st1 st2 : gmap string string)
      (ds : list string) :
  (forall d, In d ds -> row_of now1 st1 d = row_of now2 st2 d) ->
  forall total rows,
    page_loop now1 st1 ds total rows = page_loop now2 st2 ds total rows.
Proof.
  induction ds as [|d ds IH]; intros Hrows total rows; [reflexivity |].
  rewrite !page_loop_cons, (Hrows d (or_introl eq_refl)).
  destruct (row_of now2 st2 d) as [r |]; [| reflexivity]. cbn [bind].
  apply IH. intros d' Hd'. apply Hrows. now right.
Qed.

(** The loop over days whose rows are all blank. *)
Lemma page_loop_blank (now : time) (st : gmap string string) (ds : list string) :
  (forall d, In d ds -> row_of now st d = Ok blank_row) ->
  forall total rows,
    page_loop now st ds total rows
    = Ok (rows ++ repeat blank_row (length ds), total).
Proof.
  induction ds as [|d ds IH]; intros Hrows total rows.
  - cbn. now rewrite app_nil_r.
  - rewrite (page_loop_step now st d ds total rows blank_row
               (Hrows d (or_introl eq_refl))).
    rewrite IH by (intros d' Hd'; apply Hrows; now right).
    cbn [daily_duration blank_row length repeat].
    now rewrite Z.add_0_r, <- app_assoc.
Qed.

(** X10. When the format callback returns, it has changed at most the
    field it was called for, to the normalizer's text for what the field
    held; a field that is not in the state leaves the state as it is; and
    running the callback again changes nothing more. *)
Theorem format_input_callback_spec (day field : string)
        (st st' : gmap string string) :
  format_input_callback day field st = Ok st' ->
  (forall key, key <> field_key field day -> st' !! key = st !! key)
  /\ (st !! field_key field day = None -> st' = st)
  /\ (forall raw, st !! field_key field day = Some raw ->
        exists out, format_time_input raw = Ok out
                    /\ st' !! field_key field day = Some out
                    /\ normalized_shape out)
  /\ format_input_callback day field st' = Ok st'.
Proof.
  unfold format_input_callback. fold (field_key field day).
  destruct (st !! field_key field day) as [raw |] eqn:Hk.
  - destruct (format_time_input raw) as [out |] eqn:Hout; [| discriminate].
    cbn [bind]. intros [= <-]. split; [| split; [| split]].
    + intros key Hne. now rewrite lookup_insert_ne by congruence.
    + discriminate.
    + intros raw' [= <-]. exists out. rewrite lookup_insert_eq.
      eauto using format_time_input_shape.
    + rewrite lookup_insert_eq.
      rewrite (format_time_input_idempotent raw out Hout). cbn [bind].
      now rewrite insert_insert_eq.
  - intros [= <-]. rewrite Hk. repeat split; trivial. discriminate.
Qed.

Lemma format_input_callback_spec_witness :
  (forall key, key <> field_key "in" "Monday" ->
     <[in_key "Monday" := "05:45"]> initial_state !! key
     = <[in_key "Monday" := "545"]> initial_state !! key)
  /\ (<[in_key "Monday" := "545"]> initial_state !! field_key "in" "Monday"
      = None ->
      <[in_key "Monday" := "05:45"]> initial_state
      = <[in_key "Monday" := "545"]> initial_state)
  /\ (forall raw,
        <[in_key "Monday" := "545"]> initial_state !! field_key "in" "Monday"
        = Some raw ->
        exists out, format_time_input raw = Ok out
                    /\ <[in_key "Monday" := "05:45"]> initial_state
                       !! field_key "in" "Monday" = Some out
                    /\ normalized_shape out)
  /\ format_input_callback "Monday" "in"
       (<[in_key "Monday" := "05:45"]> initial_state)
     = Ok (<[in_key "Monday" := "05:45"]> initial_state).
Proof.
  apply (format_input_callback_spec "Monday" "in"
           (<[in_key "Monday" := "545"]> initial_state)).
  unfold format_input_callback.
  change ("in" +:+ "_" +:+ "Monday") with (in_key "Monday").
  rewrite lookup_insert_eq. cbn [bind].
  change (format_time_input "545") with (@Ok string "05:45"). cbn [bind].
  now rewrite insert_insert_eq.
Defined.

(** X11. "End Now" freezes the so-far duration: on a day with a valid
    in-text and an empty out-text, the row drawn after the callback shows,
    at every later reading of the clock, the duration the so-far row showed
    at the reading the callback took, without mark, error or button; the
    rows of the other days are as before. *)
Theorem end_now_freezes_so_far (now : time) (day in_text : string)
        (st : gmap string string) :
  time_ok now -> Spec.is_clock_text in_text ->
  st !! in_key day = Some in_text -> st !! out_key day = Some "" ->
  exists r_before r_after,
    row_of now st day = Ok r_before
    /\ end_now_button r_before = true
    /\ duration_suffix r_before = " (so far)"
    /\ (forall later, row_of later (end_now_callback now day st) day
                      = Ok r_after)
    /\ daily_duration r_after = daily_duration r_before
    /\ duration_suffix r_after = ""
    /\ error_in_row r_after = false
    /\ end_now_button r_after = false
    /\ (forall later d, d <> day ->
          row_of later (end_now_callback now day st) d = row_of later st d).
Proof.
  intros Hnow (t_in & Hin & ->) Hi Ho.
  exists (mk_row false true
            (Spec.minutes (Spec.elapsed_minutes t_in now)) " (so far)"
            (duration_cell (Spec.minutes (Spec.elapsed_minutes t_in now))
                           " (so far)")),
         (mk_row false false
            (Spec.minutes (Spec.elapsed_minutes t_in now)) ""
            (duration_cell (Spec.minutes (Spec.elapsed_minutes t_in now)) "")).
  split; [| split; [reflexivity | split; [reflexivity | split]]].
  - unfold row_of, getitem. rewrite Hi, Ho. cbn [bind].
    now apply day_row_so_far.
  - intros later. unfold row_of, getitem, end_now_callback.
    rewrite lookup_insert_ne by (intros H; symmetry in H;
                                 exact (in_key_not_out_key _ _ H)).
    rewrite Hi, lookup_insert_eq. cbn [bind].
    apply day_row_with_out_text; trivial.
    + now apply strftime_length.
    + intros (_ & _ & Hbad). apply Hbad. exists now. auto.
    + apply calculate_parsed; now apply strptime_strftime.
  - repeat split. intros later d Hne.
    unfold row_of, getitem, end_now_callback.
    rewrite !lookup_insert_ne; [reflexivity | |].
    + intros H%out_key_inj. congruence.
    + intros H. symmetry in H. exact (in_key_not_out_key _ _ H).
Qed.

Lemma end_now_freezes_so_far_witness :
  exists r_before r_after,
    row_of (mk_time 17 30) (<[in_key "Monday" := "09:00"]> initial_state)
           "Monday" = Ok r_before
    /\ (forall later,
          row_of later
            (end_now_callback (mk_time 17 30) "Monday"
               (<[in_key "Monday" := "09:00"]> initial_state)) "Monday"
          = Ok r_after)
    /\ daily_duration r_after = daily_duration r_before.
Proof.
  destruct (end_now_freezes_so_far (mk_time 17 30) "Monday" "09:00"
              (<[in_key "Monday" := "09:00"]> initial_state))
    as (r1 & r2 & H1 & _ & _ & H2 & H3 & _).
  - split; cbn; lia.
  - exists (mk_time 9 0). split; [split; cbn; lia | reflexivity].
  - apply lookup_insert_eq.
  - vm_compute. reflexivity.
  - exists r1, r2. auto.
Defined.

(** X12. "Reset All" empties the two fields of every day, whatever the
    state held, and leaves every other entry of the state as it was; the
    page drawn after it has seven rows that show ["0h 0m"] without error,
    mark or button, and the total ["0h 0m"]. *)
Theorem reset_all_clears_week (now : time) (st : gmap string string) :
  (forall day, In day days ->
     reset_all_callback st !! in_key day = Some ""
     /\ reset_all_callback st !! out_key day = Some "")
  /\ (forall key, is_field_key days key = false ->
        reset_all_callback st !! key = st !! key)
  /\ page now (reset_all_callback st)
     = Ok (repeat blank_row 7, 0%Z, "0h 0m").
Proof.
  assert (Hfields : forall day, In day days ->
            reset_all_callback st !! in_key day = Some ""
            /\ reset_all_callback st !! out_key day = Some "").
  { intros day Hday. unfold reset_all_callback. rewrite !reset_lookup.
    destruct (is_field_key_in days day Hday) as [-> ->]. auto. }
  split; [exact Hfields |]. split.
  - intros key Hkey. unfold reset_all_callback. now rewrite reset_lookup, Hkey.
  - unfold page. rewrite page_loop_blank; [reflexivity |].
    intros d Hd. destruct (Hfields d Hd) as [Hi Ho].
    unfold row_of, getitem. now rewrite Hi, Ho.
Qed.

(** X13. Clearing a day twice is clearing it once, clearing two days can
    be done in either order, and "Reset All" after clearing a day of the
    week is "Reset All". *)
Theorem clear_day_algebra (d1 d2 : string) (st : gmap string string) :
  clear_day_callback d1 (clear_day_callback d1 st) = clear_day_callback d1 st
  /\ clear_day_callback d1 (clear_day_callback d2 st)
     = clear_day_callback d2 (clear_day_callback d1 st)
  /\ (In d1 days ->
      reset_all_callback (clear_day_callback d1 st) = reset_all_callback st).
Proof.
  split; [| split].
  - apply map_eq. intros key. rewrite !clear_day_lookup_b.
    now destruct (_ || _).
  - apply map_eq. intros key. rewrite !clear_day_lookup_b.
    now destruct (String.eqb key (in_key d1) || String.eqb key (out_key d1)),
                 (String.eqb key (in_key d2) || String.eqb key (out_key d2)).
  - intros Hd. apply map_eq. intros key. unfold reset_all_callback.
    rewrite !reset_lookup, clear_day_lookup_b.
    destruct (is_field_key days key) eqn:Hk; [reflexivity |].
    destruct (String.eqb_spec key (in_key d1)) as [-> | _].
    + destruct (is_field_key_in days d1 Hd) as [H _]. congruence.
    + destruct (String.eqb_spec key (out_key d1)) as [-> | _]; [| reflexivity].
      destruct (is_field_key_in days d1 Hd) as [_ H]. congruence.
Qed.

(** ** More on the week total *)

Lemma sum_durations_bounds (rows : list row) :
  Forall (fun r => (0 <= daily_duration r <= 86400)%Z
                   /\ (daily_duration r mod 60 = 0)%Z) rows ->
  (0 <= sum_durations rows <= 86400 * Z.of_nat (length rows))%Z
  /\ (sum_durations rows mod 60 = 0)%Z.
Proof.
  unfold sum_durations.
  induction 1 as [| r rows [Hb Hm] _ [IHb IHm]];
    cbn [map fold_right length]; [split; [lia | reflexivity] |].
  split; [lia |].
  rewrite Z.add_mod, Hm, IHm by lia. reflexivity.
Qed.

(** X14. On a state that holds the fields of the seven days the page
    returns seven rows; each day counts a whole number of minutes between
    zero and 24 hours, and the week total a whole number of minutes between
    zero and 168 hours. *)
Theorem week_total_bounds (now : time) (st : gmap string string) :
  has_day_fields st ->
  exists rows total,
    page now st = Ok (rows, total, format_timedelta (Some total))
    /\ length rows = 7%nat
    /\ Forall (fun r => (0 <= daily_duration r <= 86400)%Z
                        /\ (daily_duration r mod 60 = 0)%Z) rows
    /\ (0 <= total <= 7 * 86400)%Z
    /\ (total mod 60 = 0)%Z.
Proof.
  intros Hst.
  destruct (page_loop_spec now st days Hst 0%Z []) as (rows & Hpage & Hrows).
  exists rows, (sum_durations rows).
  unfold page. rewrite Hpage. cbn [bind app]. rewrite Z.add_0_l.
  assert (Hlen : length rows = 7%nat)
    by (apply Forall2_length in Hrows; now rewrite <- Hrows).
  assert (Hall : Forall (fun r => (0 <= daily_duration r <= 86400)%Z
                                  /\ (daily_duration r mod 60 = 0)%Z) rows).
  { clear Hpage Hlen. induction Hrows as [| d r ds rs Hr _ IH]; constructor;
      [| exact IH].
    unfold row_of in Hr.
    destruct (getitem st (in_key d)) as [i |]; [| discriminate].
    destruct (getitem st (out_key d)) as [o |]; [| discriminate].
    eapply day_row_duration_bounds, Hr. }
  destruct (sum_durations_bounds rows Hall) as [Hb Hm].
  rewrite Hlen in Hb. repeat split; trivial; lia.
Qed.

Lemma week_total_bounds_witness :
  exists rows total,
    page (mk_time 10 0) sample_week_so_far
    = Ok (rows, total, format_timedelta (Some total))
    /\ length rows = 7%nat
    /\ Forall (fun r => (0 <= daily_duration r <= 86400)%Z
                        /\ (daily_duration r mod 60 = 0)%Z) rows
    /\ (0 <= total <= 7 * 86400)%Z
    /\ (total mod 60 = 0)%Z
    /\ total = 63000%Z.
Proof.
  destruct (week_total_bounds (mk_time 10 0) sample_week_so_far)
    as (rows & total & Hp & Hl & Hall & Hb & Hm).
  - unfold sample_week_so_far, sample_week.
    do 5 apply insert_has_fields. exact initial_state_has_fields.
  - exists rows, total. repeat split; trivial; try lia.
    vm_compute in Hp. now injection Hp as _ <-.
Defined.

(** X15. The page reads the clock only for a day with a valid in-text and
    an empty out-text: when no day is in that state, the page is the same
    at every reading of the clock. *)
Theorem page_clock_independent (now1 now2 : time) (st : gmap string string) :
  (forall day i, In day days ->
     st !! in_key day = Some i -> st !! out_key day = Some "" ->
     ~ Spec.is_clock_text i) ->
  page now1 st = page now2 st.
Proof.
  intros Hno. unfold page.
  rewrite (page_loop_ext now1 now2 st st days); [reflexivity |].
  intros d Hd. unfold row_of, getitem.
  destruct (st !! in_key d) as [i |] eqn:Hi; [| reflexivity].
  destruct (st !! out_key d) as [o |] eqn:Ho; [| reflexivity].
  cbn [bind]. apply day_row_clock_independent.
  destruct (String.eqb_spec o "") as [-> | Hne]; [right | now left].
  eapply Hno; eauto.
Qed.

Lemma page_clock_independent_witness :
  page (mk_time 8 0)
       (<[out_key "Monday" := "17:00"]>
          (<[in_key "Monday" := "09:00"]> initial_state))
  = page (mk_time 23 59)
         (<[out_key "Monday" := "17:00"]>
            (<[in_key "Monday" := "09:00"]> initial_state)).
Proof.
  apply (page_clock_independent (mk_time 8 0) (mk_time 23 59)).
  intros day i Hday Hi Ho Hct.
  apply is_clock_text_length in Hct.
  cbn in Hday.
  repeat (destruct Hday as [<- | Hday];
          [vm_compute in Hi; injection Hi as <-;
           first [discriminate Hct | vm_compute in Ho; discriminate Ho] |]).
  contradiction.
Defined.

(** X19. The fields of the seven days are in the state the script sets up
    and stay in it through every callback that returns; on such a state the
    page never fails for a missing key. *)
Theorem fields_are_kept (now : time) (st : gmap string string) :
  has_day_fields st ->
  has_day_fields initial_state
  /\ (forall day, has_day_fields (clear_day_callback day st))
  /\ (forall t day, has_day_fields (end_now_callback t day st))
  /\ has_day_fields (reset_all_callback st)
  /\ (forall day field st',
        format_input_callback day field st = Ok st' -> has_day_fields st')
  /\ exists result, page now st = Ok result.
Proof.
  intros Hst. split; [exact initial_state_has_fields |].
  split; [intros; now apply clear_day_has_fields |].
  split; [intros; now apply end_now_has_fields |].
  split; [now apply reset_all_has_fields |].
  split; [intros day field st'; now apply format_input_has_fields |].
  destruct (page_loop_spec now st days Hst 0%Z []) as (rows & Hpage & _).
  unfold page. rewrite Hpage. cbn [bind]. eauto.
Qed.

Lemma fields_are_kept_witness :
  exists result, page (mk_time 10 0) initial_state = Ok result.
Proof.
  destruct (fields_are_kept (mk_time 10 0) initial_state
              initial_state_has_fields) as (_ & _ & _ & _ & _ & H).
  exact H.
Defined.

(** ** Where the normalizer fails *)

(** X20. The normalizer fails in one case only, and then with
    [ValueError]: when it keeps exactly three digit characters and one of
    the first two is not a decimal digit. *)
Theorem format_time_input_raises_iff (raw : string) (e : exn) :
  format_time_input raw = Raise e
  <-> e = ValueError
      /\ exists a b c,
           str_take 4 (str_filter isdigit raw)
           = String a (String b (String c ""))
           /\ (isdecimal a = false \/ isdecimal b = false).
Proof.
  unfold format_time_input.
  destruct raw as [|c0 raw0].
  - cbn. split; [discriminate |]. intros (_ & a & b & c & H & _).
    discriminate H.
  - cbn [truthy negb].
    destruct (str_take 4 (str_filter isdigit (String c0 raw0)))
      as [|a [|b [|c [|d rest]]]];
      cbn [String.length Nat.eqb str_take str_drop str_index bind].
    1-3: split; [discriminate | intros (_ & ? & ? & ? & H & _); discriminate H].
    + unfold int, int_go.
      destruct (isdecimal a) eqn:Ha; [destruct (isdecimal b) eqn:Hb |].
      * rewrite Nat.mul_0_r, Nat.add_0_l. cbn [bind].
        split.
        -- destruct (_ <? _)%nat; discriminate.
        -- intros (_ & a' & b' & c' & [= <- <- <-] & [H | H]); congruence.
      * cbn [bind]. split.
        -- intros [= <-]. split; [reflexivity |]. exists a, b, c. auto.
        -- now intros [-> _].
      * cbn [bind]. split.
        -- intros [= <-]. split; [reflexivity |]. exists a, b, c. auto.
        -- now intros [-> _].
    + split.
      * destruct (String.length rest =? 0)%nat; discriminate.
      * intros (_ & ? & ? & ? & H & _). discriminate H.
Qed.

Lemma format_time_input_reference_witness :
  format_time_input "5.45 pm" = Ok (Spec.normalize "5.45 pm").
Proof.
  apply (format_time_input_reference "5.45 pm"). reflexivity.
Defined.

(** ** The week total and the clearing of a day *)

Lemma sample_week_has_fields : has_day_fields sample_week.
Proof.
  unfold sample_week. do 4 apply insert_has_fields.
  exact initial_state_has_fields.
Qed.

Lemma sample_week_no_running_day (d i : string) :
  In d days ->
  sample_week !! in_key d = Some i -> sample_week !! out_key d = Some "" ->
  ~ Spec.is_clock_text i.
Proof.
  intros Hd Hi Ho Hct%is_clock_text_length. cbn in Hd.
  repeat (destruct Hd as [<- | Hd];
          [first [ vm_compute in Ho; discriminate Ho
                 | vm_compute in Hi; injection Hi as <-; discriminate Hct ] |]).
  contradiction.
Qed.

(** After a day is cleared the rows of the week read the clock only for
    the other days that have a valid in-text and an empty out-text. *)
Lemma rows_after_clear_clock (now later : time) (day : string)
      (st : gmap string string) :
  later = now
  \/ (forall d i, In d days -> d <> day ->
        st !! in_key d = Some i -> st !! out_key d = Some "" ->
        ~ Spec.is_clock_text i) ->
  forall d, In d days ->
    row_of later (clear_day_callback day st) d
    = row_of now (clear_day_callback day st) d.
Proof.
  intros [-> | Hno] d Hd; [reflexivity |].
  destruct (String.eqb_spec d day) as [-> | Hne].
  - destruct (clear_day_lookup day st) as (Hi & Ho & _).
    unfold row_of, getitem. now rewrite Hi, Ho.
  - rewrite !(row_of_clear_other _ day d st Hne).
    unfold row_of, getitem.
    destruct (st !! in_key d) as [i |] eqn:Hi; [| reflexivity].
    destruct (st !! out_key d) as [o |] eqn:Ho; [| reflexivity].
    cbn [bind]. apply day_row_clock_independent.
    destruct (String.eqb_spec o "") as [-> | Ho']; [right | now left].
    eapply Hno; eauto.
Qed.

Lemma rows_ext (f g : string -> res row) (ds : list string) (rows : list row) :
  (forall d, In d ds -> f d = g d) ->
  Forall2 (fun d r => f d = Ok r) ds rows ->
  Forall2 (fun d r => g d = Ok r) ds rows.
Proof.
  intros Hfg Hrows. induction Hrows as [| d r ds rs Hr _ IH]; constructor.
  - rewrite <- Hr. symmetry. apply Hfg. now left.
  - apply IH. intros d' Hd'. apply Hfg. now right.
Qed.

(** C7. The week total of a run is the sum of the durations of its seven
    rows, drawn from the field texts and the clock reading of the run.
    Clearing a day empties its two fields and leaves the fields of the other
    days as they were.  The total of the run after it is again the sum of
    its rows; it is the old total less the duration the day had when the
    run reads the same clock, or when no other day has a valid in-text with
    an empty out-text. *)
Theorem week_total_after_clear (now later : time) (st : gmap string string)
        (day : string) :
  has_day_fields st -> In day days ->
  exists rows total r_day rows' total',
    page now st = Ok (rows, total, format_timedelta (Some total))
    /\ Forall2 (fun d r => row_of now st d = Ok r) days rows
    /\ length rows = 7%nat
    /\ total = sum_durations rows
    /\ row_of now st day = Ok r_day
    /\ clear_day_callback day st !! in_key day = Some ""
    /\ clear_day_callback day st !! out_key day = Some ""
    /\ (forall d, d <> day ->
          clear_day_callback day st !! in_key d = st !! in_key d
          /\ clear_day_callback day st !! out_key d = st !! out_key d)
    /\ page later (clear_day_callback day st)
       = Ok (rows', total', format_timedelta (Some total'))
    /\ Forall2 (fun d r => row_of later (clear_day_callback day st) d = Ok r)
               days rows'
    /\ length rows' = 7%nat
    /\ total' = sum_durations rows'
    /\ (later = now
        \/ (forall d i, In d days -> d <> day ->
              st !! in_key d = Some i -> st !! out_key d = Some "" ->
              ~ Spec.is_clock_text i) ->
        total' = (total - daily_duration r_day)%Z).
Proof.
  intros Hst Hday.
  destruct (page_loop_spec now st days Hst 0%Z []) as (rows & Hpage & Hrows).
  destruct (page_loop_spec later (clear_day_callback day st) days
              (clear_day_has_fields day st Hst) 0%Z [])
    as (rows' & Hpage' & Hrows').
  destruct (Hst day Hday) as [Hi Ho].
  destruct (row_of_returns now st day Hi Ho) as (r_day & Hr_day).
  destruct (clear_day_lookup day st) as (Hci & Hco & _).
  exists rows, (sum_durations rows), r_day, rows', (sum_durations rows').
  unfold page. rewrite Hpage, Hpage'. cbn [bind app]. rewrite !Z.add_0_l.
  split; [reflexivity |]. split; [exact Hrows |].
  split; [apply Forall2_length in Hrows; now rewrite <- Hrows |].
  split; [reflexivity |]. split; [exact Hr_day |].
  split; [exact Hci |]. split; [exact Hco |].
  split; [intros d Hne; now apply clear_day_other |].
  split; [reflexivity |]. split; [exact Hrows' |].
  split; [apply Forall2_length in Hrows'; now rewrite <- Hrows' |].
  split; [reflexivity |].
  intros Hclock.
  assert (Hsame : Forall2 (fun d r =>
            row_of now (clear_day_callback day st) d = Ok r) days rows').
  { apply (rows_ext (row_of later (clear_day_callback day st))); [| exact Hrows'].
    apply (rows_after_clear_clock now later day st Hclock). }
  destruct (sum_after_clear now day st r_day Hr_day days rows rows'
              NoDup_days Hrows Hsame) as [Hsum _].
  exact (Hsum Hday).
Qed.

Lemma week_total_after_clear_witness :
  exists rows total r_day rows' total',
    page (mk_time 10 0) sample_week
    = Ok (rows, total, format_timedelta (Some total))
    /\ row_of (mk_time 10 0) sample_week "Monday" = Ok r_day
    /\ page (mk_time 11 0) (clear_day_callback "Monday" sample_week)
       = Ok (rows', total', format_timedelta (Some total'))
    /\ total' = (total - daily_duration r_day)%Z
    /\ total = 59400%Z /\ daily_duration r_day = 30600%Z /\ total' = 28800%Z.
Proof.
  destruct (week_total_after_clear (mk_time 10 0) (mk_time 11 0) sample_week
              "Monday")
    as (rows & total & r_day & rows' & total' & Hp & _ & _ & _ & Hr & _ & _
        & _ & Hp' & _ & _ & _ & Hless).
  - exact sample_week_has_fields.
  - cbn. auto.
  - exists rows, total, r_day, rows', total'.
    split; [exact Hp |]. split; [exact Hr |]. split; [exact Hp' |].
    split.
    + apply Hless. right. intros d i Hd _. now apply sample_week_no_running_day.
    + vm_compute in Hp. vm_compute in Hr. vm_compute in Hp'.
      injection Hp as _ <-. injection Hr as <-. injection Hp' as _ <-.
      repeat split.
Defined.

(** C7, as stated, fails when the run after the clearing reads a later
    clock and another day is still running: with Wednesday begun at 09:00
    and not ended, the total at 10:00 is 17h 30m, Monday counts 8h 30m of
    it, and the total at 11:00 with Monday cleared is 10h 0m, not 9h 0m. *)
Lemma week_total_clear_at_later_reading :
  exists rows r_day rows',
    page (mk_time 10 0) sample_week_so_far = Ok (rows, 63000%Z, "17h 30m")
    /\ row_of (mk_time 10 0) sample_week_so_far "Monday" = Ok r_day
    /\ daily_duration r_day = 30600%Z
    /\ page (mk_time 11 0) (clear_day_callback "Monday" sample_week_so_far)
       = Ok (rows', 36000%Z, "10h 0m")
    /\ 36000%Z <> (63000 - 30600)%Z.
Proof.
  do 3 eexists. split; [vm_compute; reflexivity |].
  split; [vm_compute; reflexivity |]. split; [reflexivity |].
  split; [vm_compute; reflexivity | discriminate].
Qed.
